(** * learning-bot: the retrieval-and-generation pipeline

    A shallow embedding of
    - [app/utils/document_processor.py]   ([chunk_text]),
    - [app/services/vector_db_service.py] ([query_documents]),
    - [app/services/chatbot_service.py]   ([_create_context],
      [_generate_answer], [answer_question]),
    - [app/routers/chat.py]               ([ask_question]),
    and the properties of the specification that concern them. *)

From Stdlib Require Import ZArith NArith Ascii String Lia.
From stdpp Require Import base list gmap sets pretty.

Local Open Scope Z_scope.

(** ** Python strings

    A [str] is a sequence of Unicode code points. *)

Definition char : Type := N.
Definition text : Type := list char.

Definition of_string (s : string) : text :=
  map N_of_ascii (list_ascii_of_string s).
Arguments of_string : simpl never.

Definition dot : char := 46%N.
Definition newline : char := 10%N.
Definition quote : char := 34%N.

(** [len(s)] *)
Definition py_len {A} (l : list A) : Z := Z.of_nat (length l).

(** Truth value of a sequence: [if s:] holds when [s] is not empty. *)
Definition truthy {A} (l : list A) : bool :=
  match l with [] => false | _ :: _ => true end.

(** The characters [str.strip()] removes: those for which [str.isspace]
    holds (the table of [Py_UNICODE_ISSPACE]). *)
Definition is_space (c : char) : bool :=
  (((9 <=? c) && (c <=? 13)) || ((28 <=? c) && (c <=? 32))
   || (c =? 133) || (c =? 160) || (c =? 5760)
   || ((8192 <=? c) && (c <=? 8202))
   || (c =? 8232) || (c =? 8233) || (c =? 8239) || (c =? 8287)
   || (c =? 12288))%N.

Fixpoint py_lstrip (s : text) : text :=
  match s with
  | [] => []
  | c :: r => if is_space c then py_lstrip r else s
  end.

Definition py_rstrip (s : text) : text := rev (py_lstrip (rev s)).

(** [s.strip()] *)
Definition py_strip (s : text) : text := py_rstrip (py_lstrip s).

(** A slice bound as [s[i:j]] reads it: a negative bound counts from the
    end, and every bound is clamped to [0 .. len(s)]. *)
Definition slice_bound (n i : Z) : Z :=
  if i <? 0 then Z.max 0 (i + n) else Z.min i n.

(** [s[i:j]] *)
Definition py_slice {A} (s : list A) (i j : Z) : list A :=
  let lo := slice_bound (py_len s) i in
  let hi := slice_bound (py_len s) j in
  take (Z.to_nat (hi - lo)) (drop (Z.to_nat lo) s).

(** [s.rfind(c)] for a one-character [c]: the highest index holding [c],
    or [-1]. *)
Fixpoint py_rfind (c : char) (s : text) : Z :=
  match s with
  | [] => -1
  | x :: r =>
      let k := py_rfind c r in
      if 0 <=? k then k + 1
      else if (x =? c)%N then 0 else -1
  end.

(** ** document_processor.chunk_text *)

Module Chunker.

(** The variables of the [while] loop that live across iterations. *)
Record loop_state : Type := LoopState {
  start : Z;
  chunks : list text
}.

(** [last_break > chunk_size * 0.5].  The right-hand side is a float and
    Python compares an int with a float by value, so the test is
    [chunk_size < 2 * last_break] whenever [chunk_size * 0.5] is the exact
    half of [chunk_size], which it is for a magnitude up to 2^53.  Above
    that the product is a rounded value of magnitude at least 2^52, which
    compares with a position in the text as the exact half does as long
    as the text has fewer than 2^52 characters.  From 2^1024 on the
    conversion to float raises [OverflowError]: [past_halfway_float] below
    is the test with its conversion and its error, and [window_float] and
    [chunk_text_float] are the window and the function built on it. *)
Definition past_halfway (last_break chunk_size : Z) : bool :=
  chunk_size <? 2 * last_break.

(** Lines 76-89: the final [end] and [chunk] of the window that starts at
    [start]. *)
Definition window (txt : text) (chunk_size start : Z) : Z * text :=
  let text_length := py_len txt in
  let end_ := start + chunk_size in
  let chunk := py_slice txt start end_ in
  if end_ <? text_length then
    let last_period := py_rfind dot chunk in
    let last_newline := py_rfind newline chunk in
    let last_break := Z.max last_period last_newline in
    if past_halfway last_break chunk_size then
      let end_ := start + last_break + 1 in
      (end_, py_slice txt start end_)
    else (end_, chunk)
  else (end_, chunk).

(** One iteration of the loop body (lines 75-96). *)
Definition chunk_step (txt : text) (chunk_size chunk_overlap : Z)
    (st : loop_state) : loop_state :=
  let text_length := py_len txt in
  let '(end_, chunk) := window txt chunk_size (start st) in
  let chunks' :=
    if truthy (py_strip chunk) then chunks st ++ [py_strip chunk]
    else chunks st in
  let start' :=
    if end_ <? text_length then end_ - chunk_overlap else text_length in
  LoopState start' chunks'.

(** [while start < text_length: ...], run for at most [fuel] iterations;
    [None] when the loop is still running after [fuel] of them. *)
Fixpoint chunk_loop (fuel : nat) (txt : text) (chunk_size chunk_overlap : Z)
    (st : loop_state) : option (list text) :=
  if start st <? py_len txt then
    match fuel with
    | O => None
    | S fuel' =>
        chunk_loop fuel' txt chunk_size chunk_overlap
          (chunk_step txt chunk_size chunk_overlap st)
    end
  else Some (chunks st).

Definition chunk_text (fuel : nat) (txt : text)
    (chunk_size chunk_overlap : Z) : option (list text) :=
  if negb (truthy txt) || negb (truthy (py_strip txt)) then Some []
  else chunk_loop fuel txt chunk_size chunk_overlap (LoopState 0 []).

(** The state after [n] iterations of the body, whether or not the loop
    condition still holds (used to state loop invariants). *)
Fixpoint iterate (n : nat) (txt : text) (chunk_size chunk_overlap : Z)
    (st : loop_state) : loop_state :=
  match n with
  | O => st
  | S n' => iterate n' txt chunk_size chunk_overlap
              (chunk_step txt chunk_size chunk_overlap st)
  end.

(** *** Vocabulary of the specification *)

(** A chunk as [chunk_text] appends it: equal to its own [strip], not
    empty, and not made of whitespace only. *)
Definition clean (c : text) : Prop :=
  py_strip c = c /\ c <> [] /\ forallb is_space c = false.



(** A text on which a break falls inside the overlap. *)
Definition looping_text : text := of_string "aaaaaa.bbbbbbbbbbbb".

(** *** The comparison as floating point evaluates it

    [chunk_size * 0.5] converts [chunk_size] to a float first: to the
    nearest double, a tie going to the even one, and with [OverflowError]
    when the rounded value is beyond the doubles (a magnitude of 2^1024 or
    more).  A double that comes from an integer of magnitude 2^53 or more
    is an integer, so a double is held here as the integer it denotes. *)

(** The multiple of [2^e] nearest to [a] (for [0 <= a], [1 <= e]), a tie
    going to the even multiple. *)
Definition round_half_even (a e : Z) : Z :=
  let q := Z.shiftr a e in
  let r := a - Z.shiftl q e in
  let half := Z.shiftl 1 (e - 1) in
  if (half <? r) || ((r =? half) && Z.odd q) then Z.shiftl (q + 1) e
  else Z.shiftl q e.

(** [float(n)] for an int [n]; [None] is [OverflowError].  Below 2^53 every
    integer is a double; from there on 53 bits are kept. *)
Definition float_of_int (n : Z) : option Z :=
  let a := Z.abs n in
  if a <? 2 ^ 53 then Some n
  else
    let m := round_half_even a (Z.log2 a - 52) in
    if m <? 2 ^ 1024 then Some (Z.sgn n * m) else None.

(** [last_break > chunk_size * 0.5].  Halving a double of magnitude 1 or
    more is exact, and Python compares an int with a float by value: the
    test is [float(chunk_size) < 2 * last_break], once the conversion has
    returned. *)
Definition past_halfway_float (last_break chunk_size : Z) : option bool :=
  match float_of_int chunk_size with
  | Some f => Some (f <? 2 * last_break)
  | None => None
  end.

(** Lines 76-89, with the comparison of line 86 evaluated (and raising)
    only for a window that does not reach the end of the text. *)
Definition window_float (txt : text) (chunk_size start : Z) : option (Z * text) :=
  let text_length := py_len txt in
  let end_ := start + chunk_size in
  let chunk := py_slice txt start end_ in
  if end_ <? text_length then
    let last_period := py_rfind dot chunk in
    let last_newline := py_rfind newline chunk in
    let last_break := Z.max last_period last_newline in
    match past_halfway_float last_break chunk_size with
    | None => None
    | Some true =>
        let end_ := start + last_break + 1 in
        Some (end_, py_slice txt start end_)
    | Some false => Some (end_, chunk)
    end
  else Some (end_, chunk).

(** One iteration of the loop body; [None] when line 86 raises. *)
Definition chunk_step_float (txt : text) (chunk_size chunk_overlap : Z)
    (st : loop_state) : option loop_state :=
  let text_length := py_len txt in
  match window_float txt chunk_size (start st) with
  | None => None
  | Some (end_, chunk) =>
      let chunks' :=
        if truthy (py_strip chunk) then chunks st ++ [py_strip chunk]
        else chunks st in
      let start' :=
        if end_ <? text_length then end_ - chunk_overlap else text_length in
      Some (LoopState start' chunks')
  end.

(** How a run of [chunk_text] stands after some iterations. *)
Inductive run : Type :=
  | Returned (chunks : list text)
  | OverflowError
  | Running.

Fixpoint chunk_loop_float (fuel : nat) (txt : text)
    (chunk_size chunk_overlap : Z) (st : loop_state) : run :=
  if start st <? py_len txt then
    match fuel with
    | O => Running
    | S fuel' =>
        match chunk_step_float txt chunk_size chunk_overlap st with
        | None => OverflowError
        | Some st' => chunk_loop_float fuel' txt chunk_size chunk_overlap st'
        end
    end
  else Returned (chunks st).

Definition chunk_text_float (fuel : nat) (txt : text)
    (chunk_size chunk_overlap : Z) : run :=
  if negb (truthy txt) || negb (truthy (py_strip txt)) then Returned []
  else chunk_loop_float fuel txt chunk_size chunk_overlap (LoopState 0 []).

(** [chunk_text] as a [run]. *)
Definition run_of (r : option (list text)) : run :=
  match r with Some l => Returned l | None => Running end.

End Chunker.

(** ** The services: effects

    The vector store, the embedding model, the generation model and the
    standard output are outside the program.  A call to one of them is
    recorded in the history
    of the run and answered by the backend, which may answer with a value
    or with an exception and may take the whole history so far into
    account (so a backend may change its answers from call to call). *)

Module Pipeline.

(** An exception, with the text [str(e)] gives.  Only exceptions that
    [except Exception] catches are modelled. *)
Inductive exn : Type := Exception (msg : text).

Definition str_exn (e : exn) : text := match e with Exception m => m end.

Inductive outcome (A : Type) : Type :=
  | Ok (a : A)
  | Raise (e : exn).
Arguments Ok {A} a.
Arguments Raise {A} e.

(** The calls that leave the program. *)
Inductive call : Type :=
  | GetOrCreateCollection (name : text)  (* client.get_or_create_collection *)
  | CollectionCount                      (* collection.count() *)
  | Encode (texts : list text)           (* embedding_model.encode *)
  | CollectionQuery (n_results : Z)      (* collection.query *)
  | LoadModel                            (* ChatbotService() *)
  | Tokenize (prompt : text)             (* self.tokenizer(prompt, ...) *)
  | Generate                             (* self.model.generate *)
  | Decode                               (* self.tokenizer.decode *)
  | Print (msg : text).                  (* print *)

Definition is_index_call (c : call) : bool :=
  match c with
  | GetOrCreateCollection _ | CollectionCount | CollectionQuery _ => true
  | _ => false
  end.

Definition is_embedding_call (c : call) : bool :=
  match c with Encode _ => true | _ => false end.

Definition is_model_call (c : call) : bool :=
  match c with Tokenize _ | Generate | Decode => true | _ => false end.

(** What persists between calls of the program: the calls made so far and
    whether the module-level [_chatbot_service] is set. *)
Record world : Type := World {
  history : list call;
  chatbot_service : bool
}.

(** A computation: from a world to a value or an exception, and the world
    it leaves. *)
Definition M (A : Type) : Type := world -> outcome A * world.

Definition ret {A} (a : A) : M A := fun w => (Ok a, w).

Definition bind {A B} (m : M A) (f : A -> M B) : M B :=
  fun w =>
    match m w with
    | (Ok a, w') => f a w'
    | (Raise e, w') => (Raise e, w')
    end.

Notation "x <- m ;; k" := (bind m (fun x => k))
  (at level 100, m at next level, right associativity).

(** An outside call: it is appended to the history and answered by the
    backend from the history before it. *)
Definition perform {A} (c : call) (answer : list call -> outcome A) : M A :=
  fun w => (answer (history w), World (history w ++ [c]) (chatbot_service w)).

(** [try: body except Exception as e: handler e] *)
Definition try_except {A} (body : M A) (handler : exn -> M A) : M A :=
  fun w =>
    match body w with
    | (Ok a, w') => (Ok a, w')
    | (Raise e, w') => handler e w'
    end.

(** *** Data *)

(** A metadata value.  The metadata this program stores holds strings
    (["filename"], ["file_type"], ["subject_id"], ["document_id"]) and
    integers (["chunk_index"]). *)
Inductive meta_value : Type :=
  | MStr (s : text)
  | MInt (i : Z).

#[global] Instance meta_value_eq_dec : EqDecision meta_value.
Proof. solve_decision. Defined.

#[global] Instance meta_value_countable : Countable meta_value.
Proof.
  refine (inj_countable'
    (fun v => match v with MStr s => inl s | MInt i => inr i end)
    (fun x => match x with inl s => MStr s | inr i => MInt i end) _).
  by intros [].
Defined.

(** One metadata entry of a query result: a dict, or [None]. *)
Definition metadata : Type := option (gmap text meta_value).

(** What [collection.query] returns: under each key a list with one row
    per query embedding, or [None]. *)
Record query_result (distance : Type) : Type := QueryResult {
  qr_documents : option (list (list text));
  qr_metadatas : option (list (list metadata));
  qr_distances : option (list (list distance))
}.
Arguments QueryResult {distance}.
Arguments qr_documents {distance}.
Arguments qr_metadatas {distance}.
Arguments qr_distances {distance}.

(** The dict [query_documents] returns. *)
Record retrieval (distance : Type) : Type := Retrieval {
  documents : list text;
  metadatas : list metadata;
  distances : list distance
}.
Arguments Retrieval {distance}.
Arguments documents {distance}.
Arguments metadatas {distance}.
Arguments distances {distance}.

Definition empty_retrieval {distance} : retrieval distance := Retrieval [] [] [].

(** The dict [answer_question] returns. *)
Record answer_record : Type := AnswerRecord {
  answer : text;
  sources : list meta_value
}.

(** The outside world the services talk to.  Every operation answers from
    the history of calls made before it. *)
Class Backend : Type := {
  collection : Type;
  embedding : Type;
  distance : Type;
  tensor : Type;
  client_get_or_create_collection : list call -> text -> outcome collection;
  collection_count : list call -> collection -> outcome Z;
  embedding_model_encode : list call -> list text -> outcome embedding;
  collection_query :
    list call -> collection -> embedding -> Z -> outcome (query_result distance);
  load_model : list call -> outcome unit;
  tokenizer_call : list call -> text -> outcome tensor;
  model_generate : list call -> tensor -> outcome tensor;
  tokenizer_decode : list call -> tensor -> outcome text;
  (** [print(msg)]: writing to the standard output may raise (a closed
      stream, a message the stream's encoding does not hold). *)
  stdout_print : list call -> text -> outcome unit;
  (** The [ValidationError] pydantic raises when [ChatResponse] is given
      these sources and they are not all strings. *)
  response_validation_error : list meta_value -> exn
}.

Definition sentinel : text :=
  of_string "No information found in the subject documents.".

(** [int] to [str], as an f-string formats it. *)
Definition str_of_int (i : Z) : text := of_string (pretty i).

(** [enumerate(l, i)] *)
Fixpoint enumerate {A} (i : Z) (l : list A) : list (Z * A) :=
  match l with
  | [] => []
  | x :: r => (i, x) :: enumerate (i + 1) r
  end.

(** [rows[0] if rows else []] *)
Definition first_row {A} (rows : option (list (list A))) : list A :=
  match rows with
  | Some (row :: _) => row
  | _ => []
  end.

(** *** vector_db_service *)

(** [f"subject_{subject_id}"] *)
Definition collection_name (subject_id : text) : text :=
  of_string "subject_" ++ subject_id.

Section VectorDBService.
Context `{Backend}.

Definition print (msg : text) : M unit :=
  perform (Print msg) (fun h => stdout_print h msg).

Definition get_or_create_collection (subject_id : text) : M collection :=
  perform (GetOrCreateCollection (collection_name subject_id))
    (fun h => client_get_or_create_collection h (collection_name subject_id)).

(** The body of the [try] of [query_documents] (lines 109-132). *)
Definition query_documents_try (subject_id query : text) (n_results : Z)
    : M (retrieval distance) :=
  coll <- get_or_create_collection subject_id ;;
  count <- perform CollectionCount (fun h => collection_count h coll) ;;
  if count =? 0 then ret empty_retrieval
  else
    query_embedding <-
      perform (Encode [query]) (fun h => embedding_model_encode h [query]) ;;
    count' <- perform CollectionCount (fun h => collection_count h coll) ;;
    results <-
      perform (CollectionQuery (Z.min n_results count'))
        (fun h => collection_query h coll query_embedding
                    (Z.min n_results count')) ;;
    ret (Retrieval (first_row (qr_documents results))
                   (first_row (qr_metadatas results))
                   (first_row (qr_distances results))).

(** [f"Error querying documents: {str(e)}"] *)
Definition error_querying (e : exn) : text :=
  of_string "Error querying documents: " ++ str_exn e.

(** The handler prints before it returns: an exception of that [print]
    is raised inside the handler, so it leaves [query_documents]. *)
Definition query_documents (subject_id query : text) (n_results : Z)
    : M (retrieval distance) :=
  try_except (query_documents_try subject_id query n_results)
    (fun e =>
       _ <- print (of_string "Error querying documents: " ++ str_exn e) ;;
       ret empty_retrieval).

End VectorDBService.

(** *** chatbot_service *)

Section ChatbotService.
Context `{Backend}.

Definition _create_context (docs : list text) : text :=
  if negb (truthy docs) then []
  else
    foldl (fun context '(i, doc) =>
             context ++ str_of_int i ++ of_string ". " ++ doc
                     ++ [newline; newline])
          (of_string "Context:" ++ [newline])
          (enumerate 1 (py_slice docs 0 5)).

(** The f-string of lines 56-61. *)
Definition prompt_of (question context : text) : text :=
  of_string "Based on the following context, answer the question. If the context doesn't contain relevant information, say "
  ++ [quote] ++ sentinel ++ [quote] ++ [newline; newline]
  ++ context ++ [newline; newline]
  ++ of_string "Question: " ++ question ++ [newline]
  ++ of_string "Answer:".

(** Lines 64-80: tokenize the prompt, generate, decode the first output. *)
Definition run_model (prompt : text) : M text :=
  inputs <- perform (Tokenize prompt) (fun h => tokenizer_call h prompt) ;;
  outputs <- perform Generate (fun h => model_generate h inputs) ;;
  perform Decode (fun h => tokenizer_decode h outputs).

Definition _generate_answer (question context : text) : M text :=
  if negb (truthy context) then ret sentinel
  else
    answer <- run_model (prompt_of question context) ;;
    if negb (truthy answer) || (py_len (py_strip answer) <? 3)
    then ret sentinel
    else ret answer.

(** The body of the loop of lines 131-136, on the pair
    [(sources, seen_files)]. *)
Definition sources_step (acc : list meta_value * gset meta_value)
    (md : metadata) : list meta_value * gset meta_value :=
  let '(sources, seen_files) := acc in
  match md with
  | Some d =>
      if bool_decide (d <> ∅) then
        match d !! of_string "filename" with
        | Some filename =>
            if bool_decide (filename ∈ seen_files) then acc
            else (sources ++ [filename], {[filename]} ∪ seen_files)
        | None => acc
        end
      else acc
  | None => acc
  end.

Definition extract_sources (metadatas : list metadata) : list meta_value :=
  fst (foldl sources_step ([], ∅) metadatas).

Definition answer_question (subject_id question : text) (n_results : Z)
    : M answer_record :=
  results <- query_documents subject_id question n_results ;;
  let documents := documents results in
  let metadatas := metadatas results in
  if negb (truthy documents) || (py_len documents =? 0) then
    ret (AnswerRecord sentinel [])
  else
    let context := _create_context documents in
    answer <- _generate_answer question context ;;
    ret (AnswerRecord answer (extract_sources metadatas)).

(** [get_chatbot_service]: the service is built, and the model loaded, on
    first use only. *)
Definition get_chatbot_service : M unit :=
  fun w =>
    if chatbot_service w then (Ok tt, w)
    else
      match perform LoadModel load_model w with
      | (Ok _, w') => (Ok tt, World (history w') true)
      | (Raise e, w') => (Raise e, w')
      end.

End ChatbotService.

(** *** routers/chat *)

(** A document reference inside a subject record. *)
Record document_ref : Type := DocumentRef {
  doc_id : text;
  doc_filename : text;
  doc_file_type : text;
  doc_uploaded_at : text
}.

(** A subject record of the registry, with the keys [create_subject]
    writes.  [sub_documents] is [Some docs] when the record holds the list
    [docs] under ["documents"], as every record the program writes does,
    and [None] when the record has no ["documents"] key at all.  A record
    that holds something else than a list under ["documents"] (a [null],
    say) is not represented: only a [subjects.json] written by hand holds
    one. *)
Record subject : Type := Subject {
  sub_id : text;
  sub_name : text;
  sub_description : option text;
  sub_created_at : text;
  sub_documents : option (list document_ref)
}.

Record ChatRequest : Type := MkChatRequest {
  req_subject_id : text;
  req_question : text
}.

Record ChatResponse : Type := MkChatResponse {
  resp_subject_id : text;
  resp_question : text;
  resp_answer : text;
  resp_sources : list text
}.

(** How the handler ends: with a response, or with an [HTTPException]. *)
Inductive http_outcome : Type :=
  | Respond (r : ChatResponse)
  | HTTPException (status_code : Z) (detail : text).

(** Validation of [sources: Optional[List[str]]]: every entry must be a
    string. *)
Definition validate_sources (l : list meta_value) : option (list text) :=
  mapM (fun v => match v with MStr s => Some s | MInt _ => None end) l.

Section ChatRouter.
Context `{Backend}.

(** [not subject.get("documents") or len(subject["documents"]) == 0] *)
Definition has_no_documents (s : subject) : bool :=
  match sub_documents s with
  | None => true
  | Some docs => negb (truthy docs) || (py_len docs =? 0)
  end.

(** The [try] of lines 34-47.  Building the [ChatResponse] validates the
    sources; when one of them is not a string pydantic raises a
    [ValidationError], which [except Exception] catches. *)
Definition ask_question_try (request : ChatRequest) : M ChatResponse :=
  _ <- get_chatbot_service ;;
  result <- answer_question (req_subject_id request) (req_question request) 5 ;;
  match validate_sources (sources result) with
  | Some srcs =>
      ret (MkChatResponse (req_subject_id request) (req_question request)
             (answer result) srcs)
  | None => fun w => (Raise (response_validation_error (sources result)), w)
  end.

(** [subjects] is the registry [subject_service.subjects]. *)
Definition ask_question (subjects : gmap text subject) (request : ChatRequest)
    : world -> http_outcome * world :=
  fun w =>
    match subjects !! req_subject_id request with
    | None => (HTTPException 404 (of_string "Subject not found"), w)
    | Some subject =>
        if has_no_documents subject then
          (Respond (MkChatResponse (req_subject_id request)
                      (req_question request) sentinel []), w)
        else
          match ask_question_try request w with
          | (Ok r, w') => (Respond r, w')
          | (Raise e, w') =>
              (HTTPException 500
                 (of_string "Error processing question: " ++ str_exn e), w')
          end
    end.

End ChatRouter.

(** *** Backends for the examples *)

(** The metadata [add_documents] stores for chunk [chunk_index] of a
    file. *)
Definition chunk_metadata (filename : string) (chunk_index : Z) : metadata :=
  Some (<[of_string "filename" := MStr (of_string filename)]>
          (<[of_string "chunk_index" := MInt chunk_index]> ∅)).

(** A backend whose collection answers [count] to [count()], returns the
    one row [docs] / [mds] to a query, and whose model decodes to
    [generated]. *)
Definition stub_backend (count : outcome Z) (docs : list text)
    (mds : list metadata) (generated : outcome text) : Backend := {|
  collection := unit;
  embedding := unit;
  distance := unit;
  tensor := text;
  client_get_or_create_collection := fun _ _ => Ok tt;
  collection_count := fun _ _ => count;
  embedding_model_encode := fun _ _ => Ok tt;
  collection_query := fun _ _ _ _ =>
    Ok (QueryResult (Some [docs]) (Some [mds]) (Some [map (fun _ => tt) docs]));
  load_model := fun _ => Ok tt;
  tokenizer_call := fun _ prompt => Ok prompt;
  model_generate := fun _ inputs => Ok inputs;
  tokenizer_decode := fun _ _ => generated;
  stdout_print := fun _ _ => Ok tt;
  response_validation_error := fun _ =>
    Exception (of_string "Input should be a valid string")
|}.

(** The same backend with a standard output that answers [printed] to
    every [print]. *)
Definition stub_backend_printing (printed : outcome unit) (count : outcome Z)
    (docs : list text) (mds : list metadata) (generated : outcome text)
    : Backend := {|
  collection := unit;
  embedding := unit;
  distance := unit;
  tensor := text;
  client_get_or_create_collection := fun _ _ => Ok tt;
  collection_count := fun _ _ => count;
  embedding_model_encode := fun _ _ => Ok tt;
  collection_query := fun _ _ _ _ =>
    Ok (QueryResult (Some [docs]) (Some [mds]) (Some [map (fun _ => tt) docs]));
  load_model := fun _ => Ok tt;
  tokenizer_call := fun _ prompt => Ok prompt;
  model_generate := fun _ inputs => Ok inputs;
  tokenizer_decode := fun _ _ => generated;
  stdout_print := fun _ _ => printed;
  response_validation_error := fun _ =>
    Exception (of_string "Input should be a valid string")
|}.

Definition initial_world : world := World [] false.

(** Three chunks of [A.pdf] and one of [B.pdf], in that order. *)
Definition two_files : list metadata :=
  [chunk_metadata "A.pdf" 0; chunk_metadata "A.pdf" 1;
   chunk_metadata "A.pdf" 2; chunk_metadata "B.pdf" 0].

Definition four_chunks : list text :=
  [of_string "one"; of_string "two"; of_string "three"; of_string "four"].

(** A registry with one subject, which has no documents. *)
Definition empty_subject : subject :=
  Subject (of_string "s1") (of_string "History") None
    (of_string "2024-01-01T00:00:00") (Some []).

Definition registry_of (s : subject) : gmap text subject := {[sub_id s := s]}.

(** *** Vocabulary of the specification *)

(** The filename of a metadata entry, when it has one. *)
Definition filename_of (md : metadata) : option meta_value :=
  d ← md; d !! of_string "filename".

(** Each value of a list at its first occurrence only, in the order of
    the first occurrences. *)
Fixpoint first_seen (l : list meta_value) : list meta_value :=
  match l with
  | [] => []
  | x :: r => x :: filter (fun y => y <> x) (first_seen r)
  end.

(** The calls a run added to the history. *)
Definition calls_between (w w' : world) (cs : list call) : Prop :=
  history w' = history w ++ cs.

End Pipeline.

(** ** Values for the examples *)

Module Examples.
Import Pipeline.

(** A subject with one uploaded document. *)
Definition history_subject : subject :=
  Subject (of_string "s1") (of_string "History") None
    (of_string "2024-01-01T00:00:00")
    (Some [DocumentRef (of_string "d1") (of_string "A.pdf") (of_string "pdf")
             (of_string "2024-01-02T00:00:00")]).

Definition what : ChatRequest := MkChatRequest (of_string "s1") (of_string "What?").

(** A backend that works, one whose model fails at decoding, and one
    whose collection fails at [count()]. *)
Definition working_backend : Backend :=
  stub_backend (Ok 4) four_chunks two_files (Ok (of_string "Paris")).

Definition failing_model_backend : Backend :=
  stub_backend (Ok 4) four_chunks two_files
    (Raise (Exception (of_string "out of memory"))).

Definition failing_store_backend : Backend :=
  stub_backend (Raise (Exception (of_string "down"))) [] [] (Ok []).

(** The history of a retrieval that went through, for the question
    ["What?"] on subject ["s1"]. *)
Definition retrieval_calls : list call :=
  [GetOrCreateCollection (collection_name (of_string "s1"));
   CollectionCount; Encode [of_string "What?"]; CollectionCount;
   CollectionQuery 4].

Definition what_prompt : text :=
  prompt_of (of_string "What?") (_create_context four_chunks).

End Examples.

(** ** document_processor: text extraction *)

Module TextExtraction.
Import Pipeline.

(** [bytes.decode] for the two codecs the program asks for whose tables
    are not spelled out here: [None] stands for [UnicodeDecodeError]. *)
Class Codecs : Type := {
  decode_utf_8 : list Byte.byte -> option text;
  decode_cp1252 : list Byte.byte -> option text
}.

Inductive encoding : Type := Utf_8 | Latin_1 | Cp1252.

(** [latin-1] gives every byte the code point of the same value. *)
Definition decode_latin_1 (content : list Byte.byte) : text :=
  Byte.to_N <$> content.

Section Txt.
Context `{Codecs}.

(** [file_content.decode(encoding)] *)
Definition bytes_decode (enc : encoding) (content : list Byte.byte)
    : option text :=
  match enc with
  | Utf_8 => decode_utf_8 content
  | Latin_1 => Some (decode_latin_1 content)
  | Cp1252 => decode_cp1252 content
  end.

(** The [for] loop of lines 44-48: [Some] is the [return], [None] falling
    out of the loop. *)
Fixpoint first_decoding (encodings : list encoding) (content : list Byte.byte)
    : option text :=
  match encodings with
  | [] => None
  | enc :: rest =>
      match bytes_decode enc content with
      | Some t => Some t
      | None => first_decoding rest content
      end
  end.

Definition extract_text_from_txt (content : list Byte.byte) : outcome text :=
  match first_decoding [Utf_8; Latin_1; Cp1252] content with
  | Some t => Ok t
  | None =>
      Raise (Exception
               (of_string "Error extracting text from TXT: "
                  ++ of_string "Could not decode text file with common encodings"))
  end.

End Txt.

(** Codecs for the examples, which take pure ASCII only. *)
Definition ascii_only (content : list Byte.byte) : option text :=
  if forallb (fun b => (Byte.to_N b <? 128)%N) content
  then Some (Byte.to_N <$> content) else None.

Definition ascii_codecs : Codecs :=
  {| decode_utf_8 := ascii_only; decode_cp1252 := ascii_only |}.

(** A PDF as the reader sees it: building the reader may raise, and so may
    the text extraction of each page. *)
Definition pdf_reader : Type := outcome (list (outcome text)).

(** The loop of lines 22-23, from the accumulated [text]. *)
Fixpoint pages_text (pages : list (outcome text)) (acc : text) : outcome text :=
  match pages with
  | [] => Ok acc
  | Ok page :: rest => pages_text rest (acc ++ page ++ [newline])
  | Raise e :: _ => Raise e
  end.

(** [extract_text_from_pdf], given what [PyPDF2.PdfReader] makes of the
    content. *)
Definition extract_text_from_pdf (reader : pdf_reader) : outcome text :=
  let body :=
    match reader with
    | Ok pages =>
        match pages_text pages [] with
        | Ok t => Ok (py_strip t)
        | Raise e => Raise e
        end
    | Raise e => Raise e
    end in
  match body with
  | Ok t => Ok t
  | Raise e =>
      Raise (Exception (of_string "Error extracting text from PDF: " ++ str_exn e))
  end.

End TextExtraction.

(** ** The write side: vector_db_service and subject_service

    The operations that change the vector store and the subject registry.
    The registry [subject_service.subjects] is part of the state; the
    store, the embedding model, the clock, the UUID source and the file
    [subjects.json] are outside, and calls to them are recorded and
    answered as on the read side.  The registry is a finite map: the
    order in which a [dict] lists its entries is not kept, so
    [list_subjects] and the order of the entries in the file are left
    out, and so is the loading of the file at start-up. *)

Module WriteSide.
Import Pipeline.

Inductive effect : Type :=
  | GetOrCreate (name : text)            (* client.get_or_create_collection *)
  | EncodeChunks (chunks : list text)    (* embedding_model.encode *)
  | Add (ids documents : list text)
        (metadatas : list (gmap text meta_value))  (* collection.add *)
  | Delete (name : text)                 (* client.delete_collection *)
  | Count                                (* collection.count() *)
  | Uuid4                                (* uuid.uuid4() *)
  | Now                                  (* datetime.now() *)
  | SaveSubjects (subjects : gmap text subject).   (* json.dump to the file *)

Record state : Type := State {
  effects : list effect;
  subjects : gmap text subject
}.

Definition IO (A : Type) : Type := state -> outcome A * state.

Definition io_ret {A} (a : A) : IO A := fun st => (Ok a, st).

Definition io_bind {A B} (m : IO A) (f : A -> IO B) : IO B :=
  fun st =>
    match m st with
    | (Ok a, st') => f a st'
    | (Raise e, st') => (Raise e, st')
    end.

Notation "x <~ m ;; k" := (io_bind m (fun x => k))
  (at level 100, m at next level, right associativity).

Definition io_raise {A} (e : exn) : IO A := fun st => (Raise e, st).

Definition outside {A} (c : effect) (answer : list effect -> outcome A) : IO A :=
  fun st => (answer (effects st), State (effects st ++ [c]) (subjects st)).

Definition io_try {A} (body : IO A) (handler : exn -> IO A) : IO A :=
  fun st =>
    match body st with
    | (Ok a, st') => (Ok a, st')
    | (Raise e, st') => handler e st'
    end.

Definition read_subjects : IO (gmap text subject) :=
  fun st => (Ok (subjects st), st).

Definition write_subjects (f : gmap text subject -> gmap text subject) : IO unit :=
  fun st => (Ok tt, State (effects st) (f (subjects st))).

(** The world outside.  The clock and the UUID source do not raise. *)
Class Outside : Type := {
  store_collection : Type;
  store_embedding : Type;
  store_get_or_create :
    list effect -> text -> outcome store_collection;
  store_encode : list effect -> list text -> outcome store_embedding;
  store_add :
    list effect -> store_collection -> store_embedding -> list text ->
    list (gmap text meta_value) -> list text -> outcome unit;
  store_delete : list effect -> text -> outcome unit;
  store_count : list effect -> store_collection -> outcome Z;
  uuid4 : list effect -> text;
  now_isoformat : list effect -> text;
  dump_subjects : list effect -> gmap text subject -> outcome unit
}.

(** *** vector_db_service *)

(** [[f"{document_id}_chunk_{i}" for i in range(len(chunks))]] *)
Definition chunk_ids (document_id : text) (chunks : list text) : list text :=
  (fun i => document_id ++ of_string "_chunk_" ++ str_of_int i)
    <$> seqZ 0 (py_len chunks).

(** [[{**metadata, "chunk_index": i, "document_id": document_id} for i in
    range(len(chunks))]] *)
Definition chunk_metadatas (document_id : text) (chunks : list text)
    (md : gmap text meta_value) : list (gmap text meta_value) :=
  (fun i => <[of_string "document_id" := MStr document_id]>
              (<[of_string "chunk_index" := MInt i]> md))
    <$> seqZ 0 (py_len chunks).

Section Services.
Context `{Outside}.

Definition get_or_create_collection (subject_id : text) : IO store_collection :=
  outside (GetOrCreate (collection_name subject_id))
    (fun h => store_get_or_create h (collection_name subject_id)).

Definition add_documents (subject_id document_id : text) (chunks : list text)
    (md : gmap text meta_value) : IO Z :=
  if negb (truthy chunks) then io_ret 0
  else
    coll <~ get_or_create_collection subject_id ;;
    embeddings <~ outside (EncodeChunks chunks) (fun h => store_encode h chunks) ;;
    let ids := chunk_ids document_id chunks in
    let metadatas := chunk_metadatas document_id chunks md in
    _ <~ outside (Add ids chunks metadatas)
           (fun h => store_add h coll embeddings chunks metadatas ids) ;;
    io_ret (py_len chunks).

Definition delete_collection (subject_id : text) : IO unit :=
  io_try
    (outside (Delete (collection_name subject_id))
       (fun h => store_delete h (collection_name subject_id)))
    (fun _ => io_ret tt).

Definition get_collection_count (subject_id : text) : IO Z :=
  io_try
    (coll <~ get_or_create_collection subject_id ;;
     outside Count (fun h => store_count h coll))
    (fun _ => io_ret 0).

(** *** subject_service *)

Definition _save_subjects : IO unit :=
  fun st => outside (SaveSubjects (subjects st))
              (fun h => dump_subjects h (subjects st)) st.

Definition create_subject (name : text) (description : option text)
    : IO subject :=
  subject_id <~ outside Uuid4 (fun h => Ok (uuid4 h)) ;;
  created_at <~ outside Now (fun h => Ok (now_isoformat h)) ;;
  let subject := Subject subject_id name description created_at (Some []) in
  _ <~ write_subjects (fun subjects => <[subject_id := subject]> subjects) ;;
  _ <~ _save_subjects ;;
  io_ret subject.

Definition get_subject (subject_id : text) : IO (option subject) :=
  subjects <~ read_subjects ;;
  io_ret (subjects !! subject_id).

Definition delete_subject (subject_id : text) : IO bool :=
  subjects <~ read_subjects ;;
  match subjects !! subject_id with
  | None => io_ret false
  | Some _ =>
      _ <~ delete_collection subject_id ;;
      _ <~ write_subjects (fun subjects => delete subject_id subjects) ;;
      _ <~ _save_subjects ;;
      io_ret true
  end.

(** [self.subjects[subject_id]["documents"].append(document)]: the
    subscript raises [KeyError('documents')], whose [str] is
    ['documents'] with its quotes, when the record has no ["documents"]
    key. *)
Definition append_document (s : subject) (document : document_ref)
    : outcome subject :=
  match sub_documents s with
  | Some docs =>
      Ok (Subject (sub_id s) (sub_name s) (sub_description s)
            (sub_created_at s) (Some (docs ++ [document])))
  | None => Raise (Exception (of_string "'documents'"))
  end.

Definition add_document_to_subject
    (subject_id document_id filename file_type : text) : IO bool :=
  subjects <~ read_subjects ;;
  match subjects !! subject_id with
  | None => io_ret false
  | Some s =>
      uploaded_at <~ outside Now (fun h => Ok (now_isoformat h)) ;;
      let document := DocumentRef document_id filename file_type uploaded_at in
      match append_document s document with
      | Raise e => io_raise e
      | Ok s' =>
          _ <~ write_subjects (fun subjects => <[subject_id := s']> subjects) ;;
          _ <~ _save_subjects ;;
          io_ret true
      end
  end.

(** [len(subject.get("documents", []))]: the default [[]] is taken for a
    record without the key. *)
Definition get_document_count (subject_id : text) : IO Z :=
  subjects <~ read_subjects ;;
  match subjects !! subject_id with
  | None => io_ret 0
  | Some s => io_ret (py_len (default [] (sub_documents s)))
  end.

End Services.

(** *** routers/subjects *)

Record SubjectResponse : Type := MkSubjectResponse {
  sr_id : text;
  sr_name : text;
  sr_description : option text;
  sr_created_at : text;
  sr_document_count : Z
}.

(** What a handler returns: a value, or an [HTTPException]. *)
Inductive http (A : Type) : Type :=
  | Returns (a : A)
  | HTTPError (status_code : Z) (detail : text).
Arguments Returns {A} a.
Arguments HTTPError {A} status_code detail.

Section SubjectsRouter.
Context `{Outside}.

Definition route_create_subject (name : text) (description : option text)
    : IO (http SubjectResponse) :=
  created_subject <~ create_subject name description ;;
  io_ret (Returns (MkSubjectResponse (sub_id created_subject)
                     (sub_name created_subject)
                     (sub_description created_subject)
                     (sub_created_at created_subject) 0)).

(** The count is [len(subject.get("documents", []))], as in
    [get_document_count]. *)
Definition route_get_subject (subject_id : text) : IO (http SubjectResponse) :=
  subject <~ get_subject subject_id ;;
  match subject with
  | None => io_ret (HTTPError 404 (of_string "Subject not found"))
  | Some s =>
      io_ret (Returns (MkSubjectResponse (sub_id s) (sub_name s)
                         (sub_description s) (sub_created_at s)
                         (py_len (default [] (sub_documents s)))))
  end.

Definition route_delete_subject (subject_id : text) : IO (http unit) :=
  success <~ delete_subject subject_id ;;
  if success then io_ret (Returns tt)
  else io_ret (HTTPError 404 (of_string "Subject not found")).

End SubjectsRouter.

(** *** Values for the examples *)

(** An outside world in which everything works; the UUID source answers
    with the number of calls made so far. *)
Definition quiet_outside : Outside := {|
  store_collection := unit;
  store_embedding := unit;
  store_get_or_create := fun _ _ => Ok tt;
  store_encode := fun _ _ => Ok tt;
  store_add := fun _ _ _ _ _ _ => Ok tt;
  store_delete := fun _ _ => Ok tt;
  store_count := fun _ _ => Ok 3;
  uuid4 := fun h => of_string "id-" ++ str_of_int (py_len h);
  now_isoformat := fun _ => of_string "2024-01-01T00:00:00";
  dump_subjects := fun _ _ => Ok tt
|}.

(** The same, with a disk that cannot be written and a store that
    refuses to delete. *)
Definition broken_outside : Outside := {|
  store_collection := unit;
  store_embedding := unit;
  store_get_or_create := fun _ _ => Ok tt;
  store_encode := fun _ _ => Ok tt;
  store_add := fun _ _ _ _ _ _ => Ok tt;
  store_delete := fun _ _ => Raise (Exception (of_string "no such collection"));
  store_count := fun _ _ => Raise (Exception (of_string "down"));
  uuid4 := fun h => of_string "id-" ++ str_of_int (py_len h);
  now_isoformat := fun _ => of_string "2024-01-01T00:00:00";
  dump_subjects := fun _ _ => Raise (Exception (of_string "disk full"))
|}.

Definition empty_state : state := State [] ∅.

(** The subject [create_subject] makes first in [quiet_outside], and the
    state it leaves. *)
Definition first_subject : subject :=
  Subject (of_string "id-0") (of_string "History") None
    (of_string "2024-01-01T00:00:00") (Some []).

Definition first_state : state :=
  State [Uuid4; Now; SaveSubjects {[of_string "id-0" := first_subject]}]
        {[of_string "id-0" := first_subject]}.

(** A subject record that lacks the ["documents"] key. *)
Definition damaged_subject : subject :=
  Subject (of_string "id-9") (of_string "Old") None
    (of_string "2023-01-01T00:00:00") None.

Definition damaged_state : state :=
  State [] {[of_string "id-9" := damaged_subject]}.

(** The metadata [upload_document] hands to [add_documents]
    (lines 96-100), for a file name, an extension without its dot and a
    subject. *)
Definition upload_metadata (filename file_type subject_id : text)
    : gmap text meta_value :=
  <[of_string "subject_id" := MStr subject_id]>
    (<[of_string "file_type" := MStr file_type]>
       (<[of_string "filename" := MStr filename]> ∅)).

End WriteSide.

(** ** Facts about the string operations *)

Section StringFacts.

Lemma py_lstrip_length (s : text) : (length (py_lstrip s) <= length s)%nat.
Proof.
  induction s as [|c r IH]; simpl; [lia|].
  destruct (is_space c); simpl; lia.
Qed.

Lemma py_rstrip_length (s : text) : (length (py_rstrip s) <= length s)%nat.
Proof.
  unfold py_rstrip. rewrite length_rev.
  etransitivity; [apply py_lstrip_length|]. by rewrite length_rev.
Qed.

Lemma py_strip_length (s : text) : (length (py_strip s) <= length s)%nat.
Proof.
  unfold py_strip. etransitivity; [apply py_rstrip_length|].
  apply py_lstrip_length.
Qed.

(** What [lstrip] leaves starts with a character that is not a space. *)
Lemma py_lstrip_head (s : text) :
  py_lstrip s = [] \/ exists c r, py_lstrip s = c :: r /\ is_space c = false.
Proof.
  induction s as [|c r IH]; simpl; [by left|].
  destruct (is_space c) eqn:E; [done|]. right. by exists c, r.
Qed.

Lemma py_lstrip_cons_keep (c : char) (r : text) :
  is_space c = false -> py_lstrip (c :: r) = c :: r.
Proof. intros E. simpl. by rewrite E. Qed.

Lemma py_lstrip_idemp (s : text) : py_lstrip (py_lstrip s) = py_lstrip s.
Proof.
  destruct (py_lstrip_head s) as [->|(c & r & -> & E)]; [done|].
  by apply py_lstrip_cons_keep.
Qed.

Lemma py_lstrip_snoc (a : text) (c : char) :
  py_lstrip (a ++ [c]) =
  match py_lstrip a with
  | [] => py_lstrip [c]
  | x :: l => (x :: l) ++ [c]
  end.
Proof.
  induction a as [|x a IH]; simpl; [done|].
  destruct (is_space x); [apply IH | done].
Qed.

(** [rstrip], read from the front of the string. *)
Lemma py_rstrip_cons (c : char) (r : text) :
  py_rstrip (c :: r) =
  match py_rstrip r with
  | [] => if is_space c then [] else [c]
  | x :: l => c :: x :: l
  end.
Proof.
  unfold py_rstrip. simpl rev at 2. rewrite py_lstrip_snoc.
  destruct (py_lstrip (rev r)) as [|x l] eqn:E; simpl.
  - by destruct (is_space c).
  - rewrite rev_app_distr. simpl.
    destruct (rev l ++ [x]) as [|y l'] eqn:E'; [|done].
    by destruct (rev l).
Qed.

Lemma py_rstrip_idemp (s : text) : py_rstrip (py_rstrip s) = py_rstrip s.
Proof.
  unfold py_rstrip. by rewrite rev_involutive, py_lstrip_idemp.
Qed.

Lemma py_rstrip_keeps_head (c : char) (r : text) :
  is_space c = false -> exists r', py_rstrip (c :: r) = c :: r'.
Proof.
  intros E. rewrite py_rstrip_cons, E.
  destruct (py_rstrip r); eauto.
Qed.

(** A stripped string is empty or starts with a non-space. *)
Lemma py_strip_head (s : text) :
  py_strip s = [] \/ exists c r, py_strip s = c :: r /\ is_space c = false.
Proof.
  unfold py_strip.
  destruct (py_lstrip_head s) as [->|(c & r & -> & E)]; [by left|].
  right. destruct (py_rstrip_keeps_head c r E) as [r' ->]. by exists c, r'.
Qed.

Lemma py_strip_idemp (s : text) : py_strip (py_strip s) = py_strip s.
Proof.
  destruct (py_strip_head s) as [->|(c & r & E & Hc)]; [done|].
  unfold py_strip at 1. rewrite E, (py_lstrip_cons_keep _ _ Hc), <- E.
  unfold py_strip. apply py_rstrip_idemp.
Qed.

Lemma py_strip_not_blank (s : text) :
  truthy (py_strip s) = true -> forallb is_space (py_strip s) = false.
Proof.
  destruct (py_strip_head s) as [->|(c & r & -> & Hc)]; [done|].
  intros _. simpl. by rewrite Hc.
Qed.

Lemma py_len_nonneg {A} (l : list A) : 0 <= py_len l.
Proof. unfold py_len. lia. Qed.

Lemma slice_bound_range (n i : Z) : 0 <= n -> 0 <= slice_bound n i <= n.
Proof. unfold slice_bound. destruct (Z.ltb_spec i 0); lia. Qed.

Lemma py_slice_length {A} (s : list A) (i j : Z) :
  py_len (py_slice s i j) =
  Z.max 0 (slice_bound (py_len s) j - slice_bound (py_len s) i).
Proof.
  unfold py_slice.
  pose proof (slice_bound_range (py_len s) i (py_len_nonneg s)) as Hi.
  pose proof (slice_bound_range (py_len s) j (py_len_nonneg s)) as Hj.
  unfold py_len in *. rewrite length_take, length_drop. lia.
Qed.

(** A slice from [0] that reaches past the end is the whole string. *)
Lemma py_slice_all {A} (s : list A) (j : Z) :
  py_len s <= j -> py_slice s 0 j = s.
Proof.
  intros H. unfold py_slice, slice_bound. simpl (0 <? 0).
  pose proof (py_len_nonneg s) as Hn.
  destruct (Z.ltb_spec j 0); [lia|].
  rewrite Z.min_r, Z.min_l by lia. rewrite Z.sub_0_r. simpl drop.
  unfold py_len. rewrite Nat2Z.id. apply firstn_all.
Qed.

(** [rfind] returns the last position of the character, or [-1] when the
    string does not hold it. *)
Lemma py_rfind_spec (c : char) (s : text) :
  (py_rfind c s = -1 /\ forall i x, s !! i = Some x -> x <> c) \/
  (0 <= py_rfind c s < py_len s /\
   s !! Z.to_nat (py_rfind c s) = Some c /\
   forall j x, (Z.to_nat (py_rfind c s) < j)%nat -> s !! j = Some x -> x <> c).
Proof.
  induction s as [|x r IH]; simpl.
  - left. split; [done|]. intros i y Hy. by destruct i.
  - unfold py_len in *. simpl length.
    destruct IH as [[E Hno]|(Hr & Hat & Hlast)].
    + rewrite E. change (0 <=? -1) with false. cbv iota.
      destruct (N.eqb_spec x c) as [->|Hne].
      * right. split; [lia|]. split; [done|].
        intros [|j] y Hj Hy; [lia|]. simpl in Hy. eauto.
      * left. split; [done|]. intros [|i] y Hy; simpl in Hy; [congruence|eauto].
    + destruct (Z.leb_spec 0 (py_rfind c r)); [|lia].
      right. split; [lia|].
      replace (Z.to_nat (py_rfind c r + 1)) with (S (Z.to_nat (py_rfind c r))) by lia.
      split; [done|].
      intros [|j] y Hj Hy; [lia|]. simpl in Hy. apply (Hlast j); [lia|done].
Qed.

End StringFacts.

(** ** The chunker *)

Module ChunkerFacts.
Import Chunker.

Lemma strip_clean (c : text) : truthy (py_strip c) = true -> clean (py_strip c).
Proof.
  intros H. split; [apply py_strip_idemp|]. split.
  - by destruct (py_strip c).
  - by apply py_strip_not_blank.
Qed.

Lemma chunk_step_clean txt s o st :
  Forall clean (chunks st) -> Forall clean (chunks (chunk_step txt s o st)).
Proof.
  intros H. unfold chunk_step. destruct (window txt s (start st)) as [e c].
  simpl. destruct (truthy (py_strip c)) eqn:E; [|done].
  apply Forall_app. split; [done|]. apply Forall_cons. split; [|done].
  by apply strip_clean.
Qed.

Lemma iterate_clean n txt s o st :
  Forall clean (chunks st) -> Forall clean (chunks (iterate n txt s o st)).
Proof.
  revert st. induction n as [|n IH]; intros st H; simpl; [done|].
  apply IH. by apply chunk_step_clean.
Qed.

(** A run of the loop that ends returns the chunks of some iterate. *)
Lemma chunk_loop_iterate fuel txt s o st cs :
  chunk_loop fuel txt s o st = Some cs ->
  exists n, (n <= fuel)%nat /\ cs = chunks (iterate n txt s o st) /\
            py_len txt <= start (iterate n txt s o st).
Proof.
  revert st. induction fuel as [|fuel IH]; intros st; simpl.
  - destruct (Z.ltb_spec (start st) (py_len txt)); [done|].
    intros [= <-]. exists O. simpl. auto.
  - destruct (Z.ltb_spec (start st) (py_len txt)).
    + intros H'. destruct (IH _ H') as (n & Hn & -> & Hs).
      exists (S n). simpl. split; [lia|done].
    + intros [= <-]. exists O. simpl. split; [lia|done].
Qed.

Lemma chunk_step_looping cs :
  chunk_step looping_text 10 7 (LoopState 0 cs) =
  LoopState 0 (cs ++ [of_string "aaaaaa."]).
Proof. reflexivity. Qed.

Lemma chunk_loop_looping fuel cs :
  chunk_loop fuel looping_text 10 7 (LoopState 0 cs) = None.
Proof.
  revert cs. induction fuel as [|fuel IH]; intros cs; [done|].
  change (chunk_loop (S fuel) looping_text 10 7 (LoopState 0 cs))
    with (chunk_loop fuel looping_text 10 7
            (chunk_step looping_text 10 7 (LoopState 0 cs))).
  rewrite chunk_step_looping. apply IH.
Qed.

(** C1 (the code at a failing input).  With [chunk_size = 10] and
    [chunk_overlap = 7], so that the overlap is below the chunk size, the
    loop of [chunk_text] never ends on ["aaaaaa.bbbbbbbbbbbb"]: the window
    at [start = 0] is cut after the period at position 6, which is past
    the halfway mark, and [end - chunk_overlap] is [0] again, with one more
    chunk appended each time round.  No number of iterations returns. *)
Theorem chunk_text_overlap_below_size_diverges :
  7 < 10 /\
  chunk_step looping_text 10 7 (LoopState 0 []) =
    LoopState 0 [of_string "aaaaaa."] /\
  forall fuel, chunk_text fuel looping_text 10 7 = None.
Proof.
  split; [lia|]. split; [reflexivity|].
  intros fuel. apply (chunk_loop_looping fuel []).
Qed.

(** *** Where the loop does advance

    When the overlap is below the chunk size and at most half of it (plus
    one), every iteration moves [start] forward, so the loop ends within
    [len(text)] iterations, and no chunk is longer than [chunk_size]. *)

Lemma py_rfind_lt_len (c : char) (s : text) : -1 <= py_rfind c s < py_len s.
Proof.
  pose proof (py_len_nonneg s).
  destruct (py_rfind_spec c s) as [[-> _]|(R & _)]; lia.
Qed.

Lemma py_slice_length_le {A} (l : list A) (i n : Z) :
  0 <= i -> 0 <= n -> py_len (py_slice l i (i + n)) <= n.
Proof.
  intros Hi Hn. rewrite py_slice_length. unfold slice_bound.
  destruct (Z.ltb_spec (i + n) 0); [lia|].
  destruct (Z.ltb_spec i 0); lia.
Qed.

Lemma py_strip_len_le (c : text) : py_len (py_strip c) <= py_len c.
Proof. unfold py_len. pose proof (py_strip_length c). lia. Qed.

Lemma chunk_step_advances txt s o st :
  0 <= s -> o < s -> o <= s / 2 + 1 ->
  0 <= start st < py_len txt ->
  Forall (fun c => py_len c <= s) (chunks st) ->
  let st' := chunk_step txt s o st in
  start st < start st' /\ Forall (fun c => py_len c <= s) (chunks st').
Proof.
  intros Hs Hos Hhalf Hst Hcs. unfold chunk_step, window, past_halfway.
  set (raw := py_slice txt (start st) (start st + s)).
  pose proof (py_slice_length_le txt (start st) s (proj1 Hst) Hs) as Hraw.
  fold raw in Hraw.
  pose proof (py_rfind_lt_len dot raw) as Hd.
  pose proof (py_rfind_lt_len newline raw) as Hn.
  set (lb := Z.max (py_rfind dot raw) (py_rfind newline raw)) in *.
  assert (Hlb : -1 <= lb < py_len raw) by (unfold lb; lia).
  assert (Hdiv : 2 * (s / 2) <= s) by (apply Z.mul_div_le; lia).
  assert (Hkeep : forall c, py_len c <= s ->
            Forall (fun c => py_len c <= s)
              (if truthy (py_strip c) then chunks st ++ [py_strip c]
               else chunks st)).
  { intros c Hc. destruct (truthy (py_strip c)); [|done].
    apply Forall_app. split; [done|]. apply Forall_cons. split; [|done].
    pose proof (py_strip_len_le c). lia. }
  destruct (Z.ltb_spec (start st + s) (py_len txt)) as [Hin|Hout].
  - destruct (Z.ltb_spec s (2 * lb)) as [Hcut|Hfull]; simpl.
    + assert (Hend : start st + lb + 1 < py_len txt) by lia.
      destruct (Z.ltb_spec (start st + lb + 1) (py_len txt)); [|lia].
      split; [lia|]. apply Hkeep.
      replace (start st + lb + 1) with (start st + (lb + 1)) by lia.
      etransitivity; [apply py_slice_length_le; lia|lia].
    + destruct (Z.ltb_spec (start st + s) (py_len txt)); [|lia].
      split; [lia|]. by apply Hkeep.
  - simpl. destruct (Z.ltb_spec (start st + s) (py_len txt)); [lia|].
    split; [lia|]. by apply Hkeep.
Qed.

Lemma chunk_loop_terminates fuel txt s o st :
  0 <= s -> o < s -> o <= s / 2 + 1 ->
  0 <= start st ->
  py_len txt - start st <= Z.of_nat fuel ->
  Forall (fun c => py_len c <= s) (chunks st) ->
  exists cs, chunk_loop fuel txt s o st = Some cs /\
             Forall (fun c => py_len c <= s) cs.
Proof.
  intros Hs Hos Hhalf. revert st.
  induction fuel as [|fuel IH]; intros st H0 Hfuel Hcs; simpl.
  - destruct (Z.ltb_spec (start st) (py_len txt)); [lia|]. eauto.
  - destruct (Z.ltb_spec (start st) (py_len txt)); [|eauto].
    destruct (chunk_step_advances txt s o st Hs Hos Hhalf) as [Hadv Hcs'];
      [lia|done|].
    apply IH; [lia|lia|done].
Qed.

(** The part of C1 the code does meet: for [0 <= chunk_size], an overlap
    below the chunk size and not above [chunk_size / 2 + 1] (the integer
    quotient), [chunk_text] returns within [len(text)] iterations and every
    chunk has at most [chunk_size] characters. *)
Theorem chunk_text_terminates_overlap_at_most_half (txt : text) (s o : Z) :
  0 <= s -> o < s -> o <= s / 2 + 1 ->
  exists cs, chunk_text (length txt) txt s o = Some cs /\
             Forall (fun c => py_len c <= s) cs.
Proof.
  intros Hs Hos Hhalf. unfold chunk_text.
  destruct (negb (truthy txt) || negb (truthy (py_strip txt))); [eauto|].
  apply chunk_loop_terminates; try done. simpl. unfold py_len. lia.
Qed.


(** C9.  Every chunk [chunk_text] collects is equal to its own [strip],
    is not empty and is not whitespace only: this holds of the list built
    after any number of iterations, and so of every list returned, for
    every text, chunk size and overlap. *)
Theorem chunk_text_chunks_stripped_nonempty (txt : text) (s o : Z) :
  (forall n, Forall clean (chunks (iterate n txt s o (LoopState 0 [])))) /\
  (forall fuel cs, chunk_text fuel txt s o = Some cs -> Forall clean cs).
Proof.
  split.
  - intros n. by apply iterate_clean.
  - intros fuel cs. unfold chunk_text.
    destruct (negb (truthy txt) || negb (truthy (py_strip txt))).
    + by intros [= <-].
    + intros H. destruct (chunk_loop_iterate _ _ _ _ _ _ H) as (n & _ & -> & _).
      by apply iterate_clean.
Qed.

Lemma chunk_text_chunks_stripped_nonempty_witness :
  Chunker.chunk_text 5%nat (of_string " One. Two two two.  Three ") 12 2
    = Some [of_string "One. Two tw"; of_string "two two."; of_string "o.  Three"]
  /\ Forall clean
       [of_string "One. Two tw"; of_string "two two."; of_string "o.  Three"].
Proof.
  split; [reflexivity|].
  apply (proj2 (chunk_text_chunks_stripped_nonempty
                  (of_string " One. Two two two.  Three ") 12 2) 5%nat).
  reflexivity.
Defined.




(** *** The conversion to float *)

Lemma float_of_int_exact (n : Z) :
  Z.abs n <= 2 ^ 53 -> float_of_int n = Some n.
Proof.
  intros Hn. unfold float_of_int.
  destruct (Z.ltb_spec (Z.abs n) (2 ^ 53)) as [|Hge]; [done|].
  assert (Ha : Z.abs n = 2 ^ 53) by lia.
  rewrite Ha.
  change (round_half_even (2 ^ 53) (Z.log2 (2 ^ 53) - 52)) with (2 ^ 53).
  change (2 ^ 53 <? 2 ^ 1024) with true. cbv iota. f_equal.
  destruct (Z.abs_spec n) as [[Hpos E]|[Hneg E]].
  - rewrite Z.sgn_pos by lia. lia.
  - rewrite Z.sgn_neg by lia. lia.
Qed.




Example float_of_int_tie_to_even :
  float_of_int (2 ^ 53 + 1) = Some (2 ^ 53) /\
  float_of_int (2 ^ 53 + 3) = Some (2 ^ 53 + 4) /\
  float_of_int (- (2 ^ 53 + 3)) = Some (- (2 ^ 53 + 4)).
Proof. vm_compute. done. Qed.

(** The largest int that converts is [2^1024 - 2^970 - 1]; it converts to
    the largest double. *)
Example float_of_int_largest :
  float_of_int (2 ^ 1024 - 2 ^ 970 - 1) = Some ((2 ^ 53 - 1) * 2 ^ 971) /\
  float_of_int (2 ^ 1024 - 2 ^ 970) = None /\
  float_of_int (- 2 ^ 1024) = None.
Proof. vm_compute. done. Qed.

(** For the chunk sizes a double holds exactly, the test is the one of
    [past_halfway], and so are the window, the step and the function. *)
Lemma past_halfway_float_exact (lb s : Z) :
  Z.abs s <= 2 ^ 53 -> past_halfway_float lb s = Some (past_halfway lb s).
Proof.
  intros Hs. unfold past_halfway_float. by rewrite float_of_int_exact.
Qed.

Lemma window_float_exact (txt : text) (s startpos : Z) :
  Z.abs s <= 2 ^ 53 -> window_float txt s startpos = Some (window txt s startpos).
Proof.
  intros Hs. unfold window_float, window.
  destruct (_ <? _); [|done].
  rewrite past_halfway_float_exact by done. by destruct (past_halfway _ _).
Qed.

Lemma chunk_step_float_exact (txt : text) (s o : Z) (st : loop_state) :
  Z.abs s <= 2 ^ 53 ->
  chunk_step_float txt s o st = Some (chunk_step txt s o st).
Proof.
  intros Hs. unfold chunk_step_float, chunk_step.
  rewrite window_float_exact by done. by destruct (window txt s (start st)).
Qed.

Lemma chunk_loop_float_exact (fuel : nat) (txt : text) (s o : Z) (st : loop_state) :
  Z.abs s <= 2 ^ 53 ->
  chunk_loop_float fuel txt s o st = run_of (chunk_loop fuel txt s o st).
Proof.
  intros Hs. revert st. induction fuel as [|fuel IH]; intros st; cbn.
  - by destruct (_ <? _).
  - destruct (_ <? _); [|done]. rewrite chunk_step_float_exact by done. apply IH.
Qed.

(** With a chunk size of magnitude up to 2^53, the run with the float
    comparison is the run of [chunk_text]: it never raises, and it returns
    what [chunk_text] returns. *)
Lemma chunk_text_float_exact (fuel : nat) (txt : text) (s o : Z) :
  Z.abs s <= 2 ^ 53 ->
  chunk_text_float fuel txt s o = run_of (chunk_text fuel txt s o).
Proof.
  intros Hs. unfold chunk_text_float, chunk_text.
  destruct (_ || _); [done|]. by apply chunk_loop_float_exact.
Qed.




(** C7 (as stated, refuted).  The one-character text [" "] is not empty
    and is shorter than [chunk_size = 5], and [chunk_text] returns the
    empty list for it, not a list of one chunk. *)
Lemma chunk_text_short_blank_counterexample :
  of_string " " <> [] /\ py_len (of_string " ") < 5 /\
  (forall fuel, chunk_text fuel (of_string " ") 5 0 = Some []) /\
  (forall fuel,
     chunk_text fuel (of_string " ") 5 0 <> Some [py_strip (of_string " ")]).
Proof. repeat split; try done. Qed.

(** C7 (amended).  For every text that holds a character other than
    whitespace ([text.strip()] is not empty) and is shorter than
    [chunk_size], [chunk_text] returns, after one iteration of its loop,
    exactly one chunk, the stripped text; the overlap plays no part. *)
Theorem chunk_text_short_text_one_chunk (fuel : nat) (txt : text) (s o : Z) :
  py_strip txt <> [] ->
  py_len txt < s ->
  chunk_text (S fuel) txt s o = Some [py_strip txt].
Proof.
  intros Hne Hlen. unfold chunk_text.
  assert (Ht : truthy (py_strip txt) = true) by by destruct (py_strip txt).
  assert (Hx : truthy txt = true) by by destruct txt.
  rewrite Ht, Hx. simpl negb. simpl orb. cbv iota.
  assert (Hpos : 0 < py_len txt) by (destruct txt; [done|unfold py_len; simpl; lia]).
  assert (Hstep : chunk_step txt s o (LoopState 0 []) =
                  LoopState (py_len txt) [py_strip txt]).
  { unfold chunk_step, window. simpl start. simpl chunks.
    rewrite Z.add_0_l.
    destruct (Z.ltb_spec s (py_len txt)); [lia|].
    rewrite py_slice_all by lia. rewrite Ht.
    by destruct (Z.ltb_spec s (py_len txt)); [lia|]. }
  simpl chunk_loop.
  destruct (Z.ltb_spec 0 (py_len txt)); [|lia].
  rewrite Hstep. destruct fuel; simpl; by rewrite Z.ltb_irrefl.
Qed.

Lemma chunk_text_short_text_one_chunk_witness :
  chunk_text 1 (of_string "  ab ") 10 7 = Some [of_string "ab"].
Proof.
  apply (chunk_text_short_text_one_chunk 0 (of_string "  ab ") 10 7).
  - vm_compute. discriminate.
  - vm_compute. reflexivity.
Defined.


End ChunkerFacts.

(** ** The services *)

Module PipelineFacts.
Import Pipeline.

(** *** chatbot_service: the sources *)

Lemma sources_step_spec (src : list meta_value) (seen : gset meta_value)
    (md : metadata) :
  sources_step (src, seen) md =
  match filename_of md with
  | None => (src, seen)
  | Some f =>
      if bool_decide (f ∈ seen) then (src, seen)
      else (src ++ [f], {[f]} ∪ seen)
  end.
Proof.
  unfold sources_step, filename_of. destruct md as [d|]; [|done].
  cbn [mbind option_bind].
  case_bool_decide as Hd; [done|].
  subst d. by rewrite lookup_empty.
Qed.

Lemma first_seen_elem_of (l : list meta_value) (x : meta_value) :
  x ∈ first_seen l <-> x ∈ l.
Proof.
  induction l as [|y l IH]; simpl; [done|].
  rewrite !elem_of_cons, list_elem_of_filter, IH.
  destruct (decide (x = y)); intuition congruence.
Qed.

Lemma first_seen_NoDup (l : list meta_value) : NoDup (first_seen l).
Proof.
  induction l as [|y l IH]; simpl; [constructor|].
  apply NoDup_cons. split.
  - rewrite list_elem_of_filter. intuition congruence.
  - by apply NoDup_filter.
Qed.

(** A place in a filtered list comes from a place in the list. *)
Lemma filter_split (P : meta_value -> Prop) `{!forall x, Decision (P x)}
    (l s1 s2 : list meta_value) (x : meta_value) :
  filter P l = s1 ++ x :: s2 ->
  exists t1 t2, l = t1 ++ x :: t2 /\ filter P t1 = s1 /\ filter P t2 = s2 /\ P x.
Proof.
  revert s1. induction l as [|a l IH]; intros s1 Hf.
  - by destruct s1.
  - rewrite filter_cons in Hf. destruct (decide (P a)) as [Ha|Ha].
    + destruct s1 as [|b s1]; cbn [app] in Hf; injection Hf as -> Hf.
      * exists [], l. by rewrite filter_nil.
      * destruct (IH _ Hf) as (t1 & t2 & -> & <- & <- & Hx).
        exists (b :: t1), t2. by rewrite filter_cons_True.
    + destruct (IH _ Hf) as (t1 & t2 & -> & <- & <- & Hx).
      exists (a :: t1), t2. by rewrite filter_cons_False.
Qed.

(** First-seen order, said without [first_seen]: the values that stand
    before [x] in [first_seen l] are exactly the values that occur in [l]
    before the first occurrence of [x]. *)
Lemma first_seen_order (l s1 s2 : list meta_value) (x : meta_value) :
  first_seen l = s1 ++ x :: s2 ->
  exists l1 l2, l = l1 ++ x :: l2 /\ (x ∉ l1) /\ (forall z, z ∈ l1 <-> z ∈ s1).
Proof.
  revert s1 s2. induction l as [|a l IH]; intros s1 s2 Hs.
  - by destruct s1.
  - cbn [first_seen] in Hs. destruct s1 as [|b s1]; cbn [app] in Hs;
      injection Hs as -> Hs.
    + exists [], l. split; [done|]. split; [apply not_elem_of_nil|done].
    + destruct (filter_split _ _ _ _ _ Hs) as (t1 & t2 & Ht & <- & _ & Hx).
      destruct (IH _ _ Ht) as (l1 & l2 & -> & Hnin & Hsame).
      exists (b :: l1), l2. split; [done|]. split.
      * rewrite not_elem_of_cons. done.
      * intros z. rewrite !elem_of_cons, list_elem_of_filter, Hsame.
        destruct (decide (z = b)); intuition congruence.
Qed.


(** The loop over the metadata, started from any [sources] and a
    [seen_files] holding the same values, appends the first occurrences
    of the filenames not yet in [sources]. *)
Lemma foldl_sources_step (mds : list metadata) :
  forall (src : list meta_value) (seen : gset meta_value),
    (forall x, x ∈ seen <-> x ∈ src) ->
    fst (foldl sources_step (src, seen) mds) =
    src ++ filter (fun y => y ∉ src) (first_seen (omap filename_of mds)).
Proof.
  induction mds as [|md mds IH]; intros src seen Hseen.
  - simpl. by rewrite app_nil_r.
  - cbn [foldl omap list_omap]. rewrite sources_step_spec.
    destruct (filename_of md) as [f|]; [|by apply IH].
    cbn [first_seen]. case_bool_decide as Hf.
    + rewrite (IH _ _ Hseen). f_equal.
      rewrite filter_cons_False by (rewrite <- Hseen; auto).
      rewrite list_filter_filter. apply list_filter_iff.
      intros y. rewrite <- Hseen. intuition congruence.
    + rewrite IH.
      * rewrite <- app_assoc. f_equal.
        rewrite filter_cons_True by (by rewrite <- Hseen).
        cbn [app]. f_equal.
        rewrite list_filter_filter. apply list_filter_iff.
        intros y. rewrite elem_of_app, list_elem_of_singleton. intuition congruence.
      * intros x. rewrite elem_of_union, elem_of_singleton, elem_of_app,
          list_elem_of_singleton, Hseen. intuition congruence.
Qed.

Lemma extract_sources_first_seen (mds : list metadata) :
  extract_sources mds = first_seen (omap filename_of mds).
Proof.
  unfold extract_sources. rewrite foldl_sources_step by set_solver.
  cbn [app]. induction (first_seen (omap filename_of mds)) as [|x l IH]; [done|].
  rewrite filter_cons_True by apply not_elem_of_nil. by rewrite IH.
Qed.


Section Facts.
Context `{Backend}.

Ltac run :=
  unfold bind, perform, ret, print, try_except; cbn [history chatbot_service].

(** *** vector_db_service.query_documents *)

(** Every way the [try] of [query_documents] can go. *)
Lemma query_documents_try_cases (subject_id query : text) (n_results : Z) (w : world) :
  let h0 := history w in
  let h1 := h0 ++ [GetOrCreateCollection (collection_name subject_id)] in
  let h2 := h1 ++ [CollectionCount] in
  let h3 := h2 ++ [Encode [query]] in
  let h4 := h3 ++ [CollectionCount] in
  let cs := chatbot_service w in
  (exists e, client_get_or_create_collection h0 (collection_name subject_id) = Raise e /\
     query_documents_try subject_id query n_results w = (Raise e, World h1 cs)) \/
  (exists coll, client_get_or_create_collection h0 (collection_name subject_id) = Ok coll /\
    ((exists e, collection_count h1 coll = Raise e /\
        query_documents_try subject_id query n_results w = (Raise e, World h2 cs)) \/
     (collection_count h1 coll = Ok 0 /\
        query_documents_try subject_id query n_results w =
          (Ok empty_retrieval, World h2 cs)) \/
     (exists count, collection_count h1 coll = Ok count /\ count <> 0 /\
       ((exists e, embedding_model_encode h2 [query] = Raise e /\
           query_documents_try subject_id query n_results w = (Raise e, World h3 cs)) \/
        (exists emb, embedding_model_encode h2 [query] = Ok emb /\
          ((exists e, collection_count h3 coll = Raise e /\
              query_documents_try subject_id query n_results w =
                (Raise e, World h4 cs)) \/
           (exists count', collection_count h3 coll = Ok count' /\
             let n := Z.min n_results count' in
             let h5 := h4 ++ [CollectionQuery n] in
             ((exists e, collection_query h4 coll emb n = Raise e /\
                 query_documents_try subject_id query n_results w =
                   (Raise e, World h5 cs)) \/
              (exists results, collection_query h4 coll emb n = Ok results /\
                 query_documents_try subject_id query n_results w =
                   (Ok (Retrieval (first_row (qr_documents results))
                                  (first_row (qr_metadatas results))
                                  (first_row (qr_distances results))),
                    World h5 cs)))))))))).
Proof.
  intros h0 h1 h2 h3 h4 cs.
  unfold query_documents_try, get_or_create_collection. run.
  fold h0. fold h1. fold cs.
  destruct (client_get_or_create_collection h0 (collection_name subject_id))
    as [coll|e] eqn:E0; [right; exists coll; split; [done|] | left; eauto].
  fold h2.
  destruct (collection_count h1 coll) as [count|e] eqn:E1; [|left; eauto].
  right. destruct (Z.eqb_spec count 0) as [->|Hne]; [left; done|].
  right. exists count. split; [done|]. split; [done|]. run. fold h3.
  destruct (embedding_model_encode h2 [query]) as [emb|e] eqn:E2;
    [right; exists emb; split; [done|] | left; eauto].
  fold h4.
  destruct (collection_count h3 coll) as [count'|e] eqn:E3;
    [right; exists count'; split; [done|] | left; eauto].
  run.
  destruct (collection_query h4 coll emb (Z.min n_results count'))
    as [results|e] eqn:E4; [right; eauto | left; eauto].
Qed.

Lemma query_documents_unfold (subject_id query : text) (n_results : Z) (w : world) :
  query_documents subject_id query n_results w =
  match query_documents_try subject_id query n_results w with
  | (Ok r, w') => (Ok r, w')
  | (Raise e, w') =>
      (match stdout_print (history w') (error_querying e) with
       | Ok _ => Ok empty_retrieval
       | Raise e' => Raise e'
       end,
       World (history w' ++ [Print (error_querying e)]) (chatbot_service w'))
  end.
Proof.
  unfold query_documents. run.
  destruct (query_documents_try subject_id query n_results w) as [[r|e] w']; [done|].
  fold (error_querying e). unfold perform.
  by destruct (stdout_print (history w') (error_querying e)).
Qed.

(** The world [query_documents] leaves extends the world its guarded body
    leaves by at most the [print] of the handler. *)
Lemma query_documents_after_try (subject_id query : text) (n_results : Z)
    (w : world) res w' :
  query_documents subject_id query n_results w = (res, w') ->
  exists o w1 p,
    query_documents_try subject_id query n_results w = (o, w1) /\
    w' = World (history w1 ++ p) (chatbot_service w1) /\
    (forall c, c ∈ p -> exists msg, c = Print msg) /\
    (forall r, o = Ok r -> res = Ok r /\ p = []).
Proof.
  rewrite query_documents_unfold.
  destruct (query_documents_try subject_id query n_results w) as [[r|e] w1].
  - intros [= <- <-]. exists (Ok r), w1, []. rewrite app_nil_r.
    split; [done|]. split; [by destruct w1|]. split; [by intros c ?%elem_of_nil|].
    by intros r' [= ->].
  - intros [= <- <-]. exists (Raise e), w1, [Print (error_querying e)].
    split; [done|]. split; [done|]. split; [|done].
    intros c ->%list_elem_of_singleton. eauto.
Qed.

(** An empty collection: the result is empty after two index calls. *)
Lemma query_documents_empty_collection
    (subject_id query : text) (n_results : Z) (w : world) coll :
  client_get_or_create_collection (history w) (collection_name subject_id)
    = Ok coll ->
  collection_count
    (history w ++ [GetOrCreateCollection (collection_name subject_id)]) coll
    = Ok 0 ->
  query_documents subject_id query n_results w =
    (Ok empty_retrieval,
     World ((history w ++ [GetOrCreateCollection (collection_name subject_id)])
              ++ [CollectionCount])
           (chatbot_service w)).
Proof.
  intros E0 E1. rewrite query_documents_unfold.
  destruct (query_documents_try_cases subject_id query n_results w)
    as [(e & E & _)|(coll' & E & Hc)]; [congruence|].
  assert (coll' = coll) as -> by congruence.
  destruct Hc as [(e & E' & _)|[[_ ->]|(count & E' & Hne & _)]];
    [congruence|done|congruence].
Qed.

(** C4, as the code has it.  [query_documents] degrades a failure of the
    store to the empty result unless the [print] of the handler raises
    itself.  (1) When the subject's collection is empty ([count()] is [0])
    the result has empty documents, metadatas and distances, after the
    get-or-create and the count.  (2) When the guarded body raises [e], the
    handler prints the message of [e]: if that [print] returns, the result
    is the same empty result; if it raises [e'], [e'] leaves
    [query_documents].  (3) That is the only way out by an exception:
    [query_documents] raises [e'] only when the body raised and the
    [print] of the handler raised [e'].  (4) A result other than the empty
    one is only returned when all five backend calls (get-or-create,
    count, encode, count, query) answered without an exception, in which
    case it is the first row of each list of the query result.  (5) With a
    standard output that takes every message, [query_documents] always
    returns a result. *)
Theorem query_documents_degrades_unless_print_raises
    (subject_id query : text) (n_results : Z) (w : world) :
  let name := collection_name subject_id in
  let h0 := history w in
  let h1 := h0 ++ [GetOrCreateCollection name] in
  let h2 := h1 ++ [CollectionCount] in
  let h3 := h2 ++ [Encode [query]] in
  let h4 := h3 ++ [CollectionCount] in
  (forall coll,
     client_get_or_create_collection h0 name = Ok coll ->
     collection_count h1 coll = Ok 0 ->
     query_documents subject_id query n_results w =
       (Ok empty_retrieval, World h2 (chatbot_service w))) /\
  (forall e w',
     query_documents_try subject_id query n_results w = (Raise e, w') ->
     (forall u,
        stdout_print (history w') (error_querying e) = Ok u ->
        query_documents subject_id query n_results w =
          (Ok empty_retrieval,
           World (history w' ++ [Print (error_querying e)])
                 (chatbot_service w'))) /\
     (forall e',
        stdout_print (history w') (error_querying e) = Raise e' ->
        query_documents subject_id query n_results w =
          (Raise e',
           World (history w' ++ [Print (error_querying e)])
                 (chatbot_service w')))) /\
  (forall e' w'',
     query_documents subject_id query n_results w = (Raise e', w'') ->
     exists e w',
       query_documents_try subject_id query n_results w = (Raise e, w') /\
       stdout_print (history w') (error_querying e) = Raise e') /\
  (forall r w',
     query_documents subject_id query n_results w = (Ok r, w') ->
     r <> empty_retrieval ->
     exists coll count emb count' results,
       client_get_or_create_collection h0 name = Ok coll /\
       collection_count h1 coll = Ok count /\ count <> 0 /\
       embedding_model_encode h2 [query] = Ok emb /\
       collection_count h3 coll = Ok count' /\
       collection_query h4 coll emb (Z.min n_results count') = Ok results /\
       r = Retrieval (first_row (qr_documents results))
                     (first_row (qr_metadatas results))
                     (first_row (qr_distances results))) /\
  ((forall h msg, exists u, stdout_print h msg = Ok u) ->
   exists r w', query_documents subject_id query n_results w = (Ok r, w')).
Proof.
  intros name h0 h1 h2 h3 h4.
  pose proof (query_documents_try_cases subject_id query n_results w) as Hc.
  cbv zeta in Hc. fold name h0 h1 h2 h3 h4 in Hc.
  split; [|split; [|split; [|split]]].
  - intros coll E0 E1.
    by apply (query_documents_empty_collection _ _ _ _ coll).
  - intros e w' Ht. rewrite query_documents_unfold, Ht.
    split; [intros u ->|intros e' ->]; reflexivity.
  - intros e' w''. rewrite query_documents_unfold.
    destruct (query_documents_try subject_id query n_results w) as [[r|e] w'];
      [done|].
    destruct (stdout_print (history w') (error_querying e)) as [u|e1] eqn:Ep;
      [done|].
    intros [= -> <-]. by exists e, w'.
  - intros r w'. rewrite query_documents_unfold. intros Hr Hne.
    assert (Hraise : forall e w1,
      query_documents_try subject_id query n_results w = (Raise e, w1) -> False).
    { intros e w1 Ht. rewrite Ht in Hr.
      destruct (stdout_print (history w1) (error_querying e)); [|done].
      by injection Hr as <- <-. }
    destruct Hc as [(e & E & Ht)|(coll & E0 & Hc)]; [by destruct (Hraise _ _ Ht)|].
    destruct Hc as [(e & E & Ht)|[[E Ht]|(count & E1 & Hcount & Hc)]];
      [by destruct (Hraise _ _ Ht)|rewrite Ht in Hr; by injection Hr as <- <-|].
    destruct Hc as [(e & E & Ht)|(emb & E2 & Hc)]; [by destruct (Hraise _ _ Ht)|].
    destruct Hc as [(e & E & Ht)|(count' & E3 & Hc)]; [by destruct (Hraise _ _ Ht)|].
    destruct Hc as [(e & E & Ht)|(results & E4 & Ht)]; [by destruct (Hraise _ _ Ht)|].
    rewrite Ht in Hr. injection Hr as <- <-.
    exists coll, count, emb, count', results. done.
  - intros Hprint. rewrite query_documents_unfold.
    destruct (query_documents_try subject_id query n_results w) as [[r|e] w'];
      [eauto|].
    destruct (Hprint (history w') (error_querying e)) as [u ->]. eauto.
Qed.

(** The calls [query_documents] makes are never calls of the generation
    model, and it leaves [_chatbot_service] alone. *)
Lemma query_documents_calls (subject_id query : text) (n_results : Z)
    (w : world) res w' :
  query_documents subject_id query n_results w = (res, w') ->
  chatbot_service w' = chatbot_service w /\
  exists cs, calls_between w w' cs /\
             Forall (fun c => is_model_call c = false) cs.
Proof.
  rewrite query_documents_unfold. unfold calls_between.
  pose proof (query_documents_try_cases subject_id query n_results w) as Hc.
  cbv zeta in Hc.
  assert (Hgoal : forall o w1 cs1,
    query_documents_try subject_id query n_results w = (o, w1) ->
    w1 = World (history w ++ cs1) (chatbot_service w) ->
    Forall (fun c => is_model_call c = false) cs1 ->
    match o with
    | Ok r => (Ok r, w1)
      | Raise e =>
        (match stdout_print (history w1) (error_querying e) with
         | Ok _ => Ok empty_retrieval
         | Raise e' => Raise e'
         end,
         World (history w1 ++ [Print (error_querying e)]) (chatbot_service w1))
    end = (res, w') ->
    chatbot_service w' = chatbot_service w /\
    exists cs, history w' = history w ++ cs /\
               Forall (fun c => is_model_call c = false) cs).
  { intros o w1 cs1 _ -> Hcs1 Hres. destruct o as [r|e]; injection Hres as <- <-.
    - split; [done|]. by exists cs1.
    - split; [done|]. eexists. cbn [history]. rewrite <- app_assoc.
      split; [done|]. apply Forall_app. split; [done|]. by repeat constructor. }
  intros Hres.
  destruct Hc as [(e & E & Ht)|(coll & E0 & Hc)].
  { rewrite Ht in Hres. eapply Hgoal; [done|done| |done]. by repeat constructor. }
  destruct Hc as [(e & E & Ht)|[[E Ht]|(count & E1 & Hcount & Hc)]].
  { rewrite Ht in Hres. eapply Hgoal; [done|by rewrite <- !app_assoc| |done].
    by repeat constructor. }
  { rewrite Ht in Hres. eapply Hgoal; [done|by rewrite <- !app_assoc| |done].
    by repeat constructor. }
  destruct Hc as [(e & E & Ht)|(emb & E2 & Hc)].
  { rewrite Ht in Hres. eapply Hgoal; [done|by rewrite <- !app_assoc| |done].
    by repeat constructor. }
  destruct Hc as [(e & E & Ht)|(count' & E3 & Hc)].
  { rewrite Ht in Hres. eapply Hgoal; [done|by rewrite <- !app_assoc| |done].
    by repeat constructor. }
  destruct Hc as [(e & E & Ht)|(results & E4 & Ht)].
  { rewrite Ht in Hres. eapply Hgoal; [done|by rewrite <- !app_assoc| |done].
    by repeat constructor. }
  rewrite Ht in Hres. eapply Hgoal; [done|by rewrite <- !app_assoc| |done].
  by repeat constructor.
Qed.

(** *** chatbot_service *)

Lemma foldl_context_prefix (l : list (Z * text)) (acc : text) :
  exists rest,
    foldl (fun context '(i, doc) =>
             context ++ str_of_int i ++ of_string ". " ++ doc
                     ++ [newline; newline]) acc l = acc ++ rest.
Proof.
  revert acc. induction l as [|[i doc] l IH]; intros acc.
  - exists []. cbn [foldl]. by rewrite app_nil_r.
  - cbn [foldl]. destruct (IH (acc ++ str_of_int i ++ of_string ". " ++ doc
                                   ++ [newline; newline])) as [rest ->].
    rewrite <- app_assoc. eauto.
Qed.

(** The context of a non-empty list of documents is not empty. *)
Lemma create_context_truthy (docs : list text) :
  docs <> [] -> truthy (_create_context docs) = true.
Proof.
  intros Hne. unfold _create_context. destruct docs as [|d docs]; [done|].
  cbn [truthy negb].
  destruct (foldl_context_prefix (enumerate 1 (py_slice (d :: docs) 0 5))
              (of_string "Context:" ++ [newline])) as [rest ->].
  reflexivity.
Qed.

Lemma generate_answer_unfold (question context : text) (w : world) :
  truthy context = true ->
  _generate_answer question context w =
  match run_model (prompt_of question context) w with
  | (Ok a, w') =>
      (Ok (if negb (truthy a) || (py_len (py_strip a) <? 3)
           then sentinel else a), w')
  | (Raise e, w') => (Raise e, w')
  end.
Proof.
  intros Hc. unfold _generate_answer, bind. rewrite Hc. cbn [negb].
  destruct (run_model (prompt_of question context) w) as [[a|e] w']; [|done].
  by destruct (negb (truthy a) || (py_len (py_strip a) <? 3)).
Qed.

Lemma answer_question_unfold (subject_id question : text) (n_results : Z)
    (w : world) :
  answer_question subject_id question n_results w =
  match query_documents subject_id question n_results w with
  | (Ok results, w1) =>
      if negb (truthy (documents results)) || (py_len (documents results) =? 0)
      then (Ok (AnswerRecord sentinel []), w1)
      else
        match _generate_answer question (_create_context (documents results)) w1 with
        | (Ok a, w2) =>
            (Ok (AnswerRecord a (extract_sources (metadatas results))), w2)
        | (Raise e, w2) => (Raise e, w2)
        end
  | (Raise e, w1) => (Raise e, w1)
  end.
Proof.
  unfold answer_question, bind.
  destruct (query_documents subject_id question n_results w) as [[r|e] w1]; [|done].
  by destruct (negb (truthy (documents r)) || (py_len (documents r) =? 0)).
Qed.

Lemma sentinel_length : py_len (py_strip sentinel) = 46.
Proof. vm_compute. reflexivity. Qed.

(** C8.  For a context that is not empty, let [output] be what the model
    run (tokenize, generate, decode) returns for the prompt.  When [output]
    is empty or its [strip] has fewer than 3 characters,
    [_generate_answer] returns the sentinel; otherwise it returns [output]
    itself. *)
Theorem generate_answer_normalises_short_output
    (question context output : text) (w w' : world) :
  context <> [] ->
  run_model (prompt_of question context) w = (Ok output, w') ->
  (output = [] \/ py_len (py_strip output) < 3 ->
     _generate_answer question context w = (Ok sentinel, w')) /\
  (output <> [] /\ 3 <= py_len (py_strip output) ->
     _generate_answer question context w = (Ok output, w')).
Proof.
  intros Hc Hrun.
  rewrite generate_answer_unfold by by destruct context.
  rewrite Hrun. split.
  - intros [->|Hshort]; [done|].
    destruct (Z.ltb_spec (py_len (py_strip output)) 3); [|lia].
    by rewrite orb_true_r.
  - intros [Hne Hlong]. destruct output as [|c r]; [done|]. cbn [truthy negb orb].
    by destruct (Z.ltb_spec (py_len (py_strip (c :: r))) 3); [lia|].
Qed.

(** C3.  When retrieval returns no chunk, [answer_question] returns the
    sentinel answer with an empty sources list, in the world retrieval
    left: the calls made are those of retrieval, none of which is a call
    of the generation model.  In particular this is so when the subject's
    collection is empty ([count()] is [0]), where the only calls are the
    get-or-create and the count. *)
Theorem answer_question_no_chunks_sentinel
    (subject_id question : text) (n_results : Z) (w : world) :
  (forall r w1,
     query_documents subject_id question n_results w = (Ok r, w1) ->
     documents r = [] ->
     answer_question subject_id question n_results w =
       (Ok (AnswerRecord sentinel []), w1) /\
     exists cs, calls_between w w1 cs /\
                Forall (fun c => is_model_call c = false) cs) /\
  (forall coll,
     client_get_or_create_collection (history w) (collection_name subject_id)
       = Ok coll ->
     collection_count
       (history w ++ [GetOrCreateCollection (collection_name subject_id)]) coll
       = Ok 0 ->
     answer_question subject_id question n_results w =
       (Ok (AnswerRecord sentinel []),
        World (history w ++ [GetOrCreateCollection (collection_name subject_id);
                             CollectionCount])
              (chatbot_service w))).
Proof.
  split.
  - intros r w1 Hq Hd. rewrite answer_question_unfold, Hq, Hd. split; [done|].
    by destruct (query_documents_calls _ _ _ _ _ _ Hq) as [_ ?].
  - intros coll E0 E1. rewrite answer_question_unfold.
    rewrite (query_documents_empty_collection _ _ _ _ coll E0 E1). cbn.
    by rewrite <- app_assoc.
Qed.

(** C5.  When retrieval returns chunks and generation returns,
    the [sources] of the answer are derived from the retrieved metadata
    alone, in their order: they are the filenames of the entries that have
    one (an entry that is [None], an empty dict or a dict without
    ["filename"] adds nothing and raises nothing), each kept at its first
    occurrence only.  So no filename occurs twice, and a filename is a
    source exactly when some retrieved entry carries it; and the sources
    that stand before a source [f] are exactly the filenames met before the
    first entry that carries [f]. *)
Theorem answer_question_sources_first_seen
    (subject_id question : text) (n_results : Z) (w w1 w2 : world)
    (r : retrieval distance) (rec : answer_record) :
  query_documents subject_id question n_results w = (Ok r, w1) ->
  documents r <> [] ->
  answer_question subject_id question n_results w = (Ok rec, w2) ->
  sources rec = extract_sources (metadatas r) /\
  sources rec = first_seen (omap filename_of (metadatas r)) /\
  NoDup (sources rec) /\
  (forall f, f ∈ sources rec <->
             exists md, md ∈ metadatas r /\ filename_of md = Some f) /\
  (forall s1 f s2, sources rec = s1 ++ f :: s2 ->
     exists l1 l2, omap filename_of (metadatas r) = l1 ++ f :: l2 /\
                   (f ∉ l1) /\ (forall z, z ∈ l1 <-> z ∈ s1)).
Proof.
  intros Hq Hd. rewrite answer_question_unfold, Hq.
  destruct (documents r) as [|d ds] eqn:Ed; [done|]. cbn [truthy negb orb].
  destruct (Z.eqb_spec (py_len (d :: ds)) 0) as [E|_]; [done|].
  destruct (_generate_answer question (_create_context (d :: ds)) w1)
    as [[a|e] w2']; [|done].
  intros [= <- <-]. cbn [sources].
  rewrite extract_sources_first_seen. split; [done|]. split; [done|].
  split; [apply first_seen_NoDup|]. split.
  - intros f. by rewrite first_seen_elem_of, list_elem_of_omap.
  - intros s1 f s2. apply first_seen_order.
Qed.

(** C10.  Whenever [answer_question] returns, the answer is the sentinel,
    or it is the output of the model run on the prompt built from the
    retrieved documents and its stripped length is at least 3; in both
    cases the stripped answer has at least 3 characters. *)
Theorem answer_question_answer_not_near_empty
    (subject_id question : text) (n_results : Z) (w w' : world)
    (rec : answer_record) :
  answer_question subject_id question n_results w = (Ok rec, w') ->
  (answer rec = sentinel \/
   (3 <= py_len (py_strip (answer rec)) /\
    exists r w1,
      query_documents subject_id question n_results w = (Ok r, w1) /\
      run_model (prompt_of question (_create_context (documents r))) w1
        = (Ok (answer rec), w'))) /\
  3 <= py_len (py_strip (answer rec)).
Proof.
  rewrite answer_question_unfold.
  destruct (query_documents subject_id question n_results w) as [[r|e] w1] eqn:Hq;
    [|done].
  assert (Hs : 3 <= py_len (py_strip sentinel)) by (rewrite sentinel_length; lia).
  destruct (documents r) as [|d ds] eqn:Ed.
  { intros [= <- <-]. cbn [answer]. auto. }
  cbn [truthy negb orb].
  destruct (Z.eqb_spec (py_len (d :: ds)) 0) as [E|_]; [done|].
  rewrite generate_answer_unfold by by apply create_context_truthy.
  destruct (run_model (prompt_of question (_create_context (d :: ds))) w1)
    as [[a|e] w2] eqn:Hrun; [|done].
  intros [= <- <-]. cbn [answer].
  destruct (negb (truthy a) || (py_len (py_strip a) <? 3)) eqn:Hshort; [auto|].
  apply orb_false_elim in Hshort as [_ Hlen].
  apply Z.ltb_ge in Hlen. split; [|done]. right. split; [done|].
  exists r, w1. by rewrite Ed.
Qed.

(** *** routers/chat *)

(** C2.  For a subject of the registry that has no documents (the list
    is empty, or the record has none), [ask_question] answers with the
    sentinel and an empty sources list and leaves the world as it found
    it: the check on the subject's documents comes before retrieval, and
    no call at all is made, so no call of the vector index and no call of
    the embedding model. *)
Theorem ask_question_no_documents_short_circuits
    (subjects : gmap text subject) (request : ChatRequest) (s : subject)
    (w : world) :
  subjects !! req_subject_id request = Some s ->
  default [] (sub_documents s) = [] ->
  ask_question subjects request w =
    (Respond (MkChatResponse (req_subject_id request) (req_question request)
                sentinel []), w) /\
  calls_between w (snd (ask_question subjects request w)) [].
Proof.
  intros Hs Hd.
  assert (Hask : ask_question subjects request w =
    (Respond (MkChatResponse (req_subject_id request) (req_question request)
                sentinel []), w)).
  { unfold ask_question. rewrite Hs. unfold has_no_documents.
    destruct (sub_documents s) as [docs|]; [|done].
    simpl in Hd. by subst docs. }
  split; [done|]. rewrite Hask. unfold calls_between. cbn [snd].
  by rewrite app_nil_r.
Qed.


End Facts.

(** *** The theorems at concrete backends *)

(** A store whose [count()] raises and a standard output that is closed:
    the exception of the [print] leaves [query_documents], so "never
    raises" does not hold of the code. *)
Lemma query_documents_print_raises_counterexample :
  @query_documents
     (stub_backend_printing (Raise (Exception (of_string "closed file")))
        (Raise (Exception (of_string "down"))) [] [] (Ok []))
     (of_string "s1") (of_string "What?") 5 initial_world =
  (Raise (Exception (of_string "closed file")),
   World [GetOrCreateCollection (collection_name (of_string "s1"));
          CollectionCount;
          Print (of_string "Error querying documents: down")] false) /\
  ~ (exists r w',
       @query_documents
          (stub_backend_printing (Raise (Exception (of_string "closed file")))
             (Raise (Exception (of_string "down"))) [] [] (Ok []))
          (of_string "s1") (of_string "What?") 5 initial_world = (Ok r, w')).
Proof.
  split; [reflexivity|]. intros (r & w' & Hq). vm_compute in Hq. discriminate.
Qed.

(** A store whose [count()] raises and a working standard output: the
    exception is printed and does not come out. *)
Lemma query_documents_degrades_unless_print_raises_witness :
  @query_documents (stub_backend (Raise (Exception (of_string "down"))) [] []
                      (Ok [])) (of_string "s1") (of_string "What?") 5
     initial_world =
  (Ok empty_retrieval,
   World ([GetOrCreateCollection (collection_name (of_string "s1"));
           CollectionCount]
            ++ [Print (error_querying (Exception (of_string "down")))]) false).
Proof.
  apply (proj1 (proj1 (proj2 (@query_documents_degrades_unless_print_raises
           (stub_backend (Raise (Exception (of_string "down"))) [] [] (Ok []))
           (of_string "s1") (of_string "What?") 5 initial_world))
           (Exception (of_string "down"))
           (World [GetOrCreateCollection (collection_name (of_string "s1"));
                   CollectionCount] false)
           eq_refl) tt eq_refl).
Defined.

(** An empty collection: two index calls, an empty result. *)
Example query_documents_empty_store :
  @query_documents (stub_backend (Ok 0) [] [] (Ok [])) (of_string "s1")
     (of_string "What?") 5 initial_world =
  (Ok empty_retrieval,
   World [GetOrCreateCollection (collection_name (of_string "s1"));
          CollectionCount] false).
Proof. reflexivity. Qed.

Lemma answer_question_no_chunks_sentinel_witness :
  @answer_question (stub_backend (Ok 0) [] [] (Ok [])) (of_string "s1")
     (of_string "What?") 5 initial_world =
  (Ok (AnswerRecord sentinel []),
   World [GetOrCreateCollection (collection_name (of_string "s1"));
          CollectionCount] false).
Proof.
  apply (proj2 (@answer_question_no_chunks_sentinel
           (stub_backend (Ok 0) [] [] (Ok [])) (of_string "s1")
           (of_string "What?") 5 initial_world) tt); reflexivity.
Defined.

Example extract_sources_two_files :
  extract_sources two_files = [MStr (of_string "A.pdf"); MStr (of_string "B.pdf")].
Proof. vm_compute. reflexivity. Qed.

(** Entries without a filename are passed over. *)
Example extract_sources_skips :
  extract_sources
    [None; Some ∅; chunk_metadata "B.pdf" 0;
     Some {[of_string "chunk_index" := MInt 3]}; chunk_metadata "A.pdf" 1;
     chunk_metadata "B.pdf" 1]
  = [MStr (of_string "B.pdf"); MStr (of_string "A.pdf")].
Proof. vm_compute. reflexivity. Qed.

Lemma answer_question_sources_first_seen_witness :
  sources (AnswerRecord (of_string "Paris")
             [MStr (of_string "A.pdf"); MStr (of_string "B.pdf")]) =
  first_seen (omap filename_of two_files).
Proof.
  apply (proj1 (proj2 (@answer_question_sources_first_seen
           (stub_backend (Ok 4) four_chunks two_files (Ok (of_string "Paris")))
           (of_string "s1") (of_string "What?") 5 initial_world
           (World [GetOrCreateCollection (collection_name (of_string "s1"));
                   CollectionCount; Encode [of_string "What?"]; CollectionCount;
                   CollectionQuery 4] false)
           (World [GetOrCreateCollection (collection_name (of_string "s1"));
                   CollectionCount; Encode [of_string "What?"]; CollectionCount;
                   CollectionQuery 4;
                   Tokenize (prompt_of (of_string "What?")
                               (_create_context four_chunks));
                   Generate; Decode] false)
           (Retrieval four_chunks two_files [tt; tt; tt; tt])
           (AnswerRecord (of_string "Paris")
              [MStr (of_string "A.pdf"); MStr (of_string "B.pdf")])
           ltac:(vm_compute; reflexivity) ltac:(discriminate)
           ltac:(vm_compute; reflexivity)))).
Defined.

Lemma generate_answer_normalises_short_output_witness :
  @_generate_answer (stub_backend (Ok 4) four_chunks two_files
                       (Ok (of_string " ok ")))
    (of_string "What?") (_create_context four_chunks) initial_world =
  (Ok sentinel,
   World [Tokenize (prompt_of (of_string "What?") (_create_context four_chunks));
          Generate; Decode] false).
Proof.
  apply (proj1 (@generate_answer_normalises_short_output
           (stub_backend (Ok 4) four_chunks two_files (Ok (of_string " ok ")))
           (of_string "What?") (_create_context four_chunks) (of_string " ok ")
           initial_world _ ltac:(discriminate) eq_refl)).
  right. vm_compute. reflexivity.
Defined.

Lemma answer_question_answer_not_near_empty_witness :
  answer (AnswerRecord sentinel
            [MStr (of_string "A.pdf"); MStr (of_string "B.pdf")]) = sentinel \/
  (3 <= py_len (py_strip sentinel) /\
   exists r w1,
     @query_documents (stub_backend (Ok 4) four_chunks two_files
                         (Ok (of_string " ok ")))
       (of_string "s1") (of_string "What?") 5 initial_world = (Ok r, w1) /\
     @run_model (stub_backend (Ok 4) four_chunks two_files (Ok (of_string " ok ")))
       (prompt_of (of_string "What?") (_create_context (documents r))) w1 =
     (Ok sentinel,
      World [GetOrCreateCollection (collection_name (of_string "s1"));
             CollectionCount; Encode [of_string "What?"]; CollectionCount;
             CollectionQuery 4;
             Tokenize (prompt_of (of_string "What?")
                         (_create_context four_chunks));
             Generate; Decode] false)).
Proof.
  apply (@answer_question_answer_not_near_empty
           (stub_backend (Ok 4) four_chunks two_files (Ok (of_string " ok ")))
           (of_string "s1") (of_string "What?") 5 initial_world
           (World [GetOrCreateCollection (collection_name (of_string "s1"));
                   CollectionCount; Encode [of_string "What?"]; CollectionCount;
                   CollectionQuery 4;
                   Tokenize (prompt_of (of_string "What?")
                               (_create_context four_chunks));
                   Generate; Decode] false)
           (AnswerRecord sentinel
              [MStr (of_string "A.pdf"); MStr (of_string "B.pdf")])).
  vm_compute. reflexivity.
Defined.

Lemma ask_question_no_documents_short_circuits_witness :
  @ask_question (stub_backend (Ok 4) four_chunks two_files (Ok (of_string "Paris")))
    (registry_of empty_subject)
    (MkChatRequest (of_string "s1") (of_string "What?")) initial_world =
  (Respond (MkChatResponse (of_string "s1") (of_string "What?") sentinel []),
   initial_world).
Proof.
  apply (proj1 (@ask_question_no_documents_short_circuits
           (stub_backend (Ok 4) four_chunks two_files (Ok (of_string "Paris")))
           (registry_of empty_subject)
           (MkChatRequest (of_string "s1") (of_string "What?")) empty_subject
           initial_world ltac:(vm_compute; reflexivity) eq_refl)).
Defined.

(** The same question once the subject has a document: the pipeline runs,
    and the calls are those of retrieval followed by those of the model. *)
Example ask_question_with_documents :
  @ask_question (stub_backend (Ok 4) four_chunks two_files (Ok (of_string "Paris")))
    (registry_of
       (Subject (of_string "s1") (of_string "History") None
          (of_string "2024-01-01T00:00:00")
          (Some [DocumentRef (of_string "d1") (of_string "A.pdf")
                   (of_string "pdf") (of_string "2024-01-02T00:00:00")])))
    (MkChatRequest (of_string "s1") (of_string "What?")) initial_world =
  (Respond (MkChatResponse (of_string "s1") (of_string "What?")
              (of_string "Paris") [of_string "A.pdf"; of_string "B.pdf"]),
   World [LoadModel;
          GetOrCreateCollection (collection_name (of_string "s1"));
          CollectionCount; Encode [of_string "What?"]; CollectionCount;
          CollectionQuery 4;
          Tokenize (prompt_of (of_string "What?") (_create_context four_chunks));
          Generate; Decode] true).
Proof. vm_compute. reflexivity. Qed.

End PipelineFacts.

(** ** More on the chunker *)

Module ChunkerMore.
Import Chunker ChunkerFacts.

(** *** Strings *)

Lemma py_lstrip_blank (s : text) : forallb is_space s = true -> py_lstrip s = [].
Proof.
  induction s as [|c r IH]; simpl; [done|].
  destruct (is_space c); [apply IH | done].
Qed.

Lemma forallb_rev (s : text) :
  forallb is_space (rev s) = forallb is_space s.
Proof.
  induction s as [|c r IH]; [done|]. cbn [rev].
  rewrite forallb_app, IH. simpl. rewrite andb_true_r. apply andb_comm.
Qed.

Lemma py_strip_blank (s : text) : forallb is_space s = true -> py_strip s = [].
Proof.
  intros H. unfold py_strip. by rewrite (py_lstrip_blank _ H).
Qed.

(** [lstrip] only removes a front part, [rstrip] only a back part. *)
Lemma py_lstrip_suffix (s : text) : exists pre, s = pre ++ py_lstrip s.
Proof.
  induction s as [|c r [pre IH]]; simpl; [by exists []|].
  destruct (is_space c); [|by exists []].
  exists (c :: pre). simpl. by f_equal.
Qed.

Lemma py_rstrip_prefix (s : text) : exists post, s = py_rstrip s ++ post.
Proof.
  unfold py_rstrip. destruct (py_lstrip_suffix (rev s)) as [pre E].
  exists (rev pre). rewrite <- rev_app_distr, <- E. by rewrite rev_involutive.
Qed.

Lemma py_strip_infix (s : text) : exists pre post, s = pre ++ py_strip s ++ post.
Proof.
  unfold py_strip. destruct (py_lstrip_suffix s) as [pre E].
  destruct (py_rstrip_prefix (py_lstrip s)) as [post E'].
  exists pre, post. by rewrite <- E', <- E.
Qed.

Lemma py_slice_infix {A} (s : list A) (i j : Z) :
  exists pre post, s = pre ++ py_slice s i j ++ post.
Proof.
  unfold py_slice.
  set (lo := Z.to_nat (slice_bound (py_len s) i)).
  set (k := Z.to_nat (slice_bound (py_len s) j - slice_bound (py_len s) i)).
  exists (take lo s), (drop k (drop lo s)).
  by rewrite (take_drop k), (take_drop lo).
Qed.

(** A character that is not a space survives [strip]. *)
Lemma py_lstrip_keeps (s : text) (c : char) :
  c ∈ s -> is_space c = false -> c ∈ py_lstrip s.
Proof.
  intros Hin Hc. induction s as [|x r IH]; [done|]. simpl.
  destruct (is_space x) eqn:Ex; [|done].
  apply elem_of_cons in Hin as [->|Hin]; [congruence|by apply IH].
Qed.

Lemma elem_of_rev_iff (s : text) (c : char) : c ∈ rev s <-> c ∈ s.
Proof. rewrite !list_elem_of_In. symmetry. apply in_rev. Qed.

Lemma py_strip_keeps (s : text) (c : char) :
  c ∈ s -> is_space c = false -> c ∈ py_strip s.
Proof.
  intros Hin Hc. unfold py_strip, py_rstrip.
  rewrite elem_of_rev_iff. apply py_lstrip_keeps; [|done].
  rewrite elem_of_rev_iff. by apply py_lstrip_keeps.
Qed.

(** Inside its bounds, a slice holds the characters of the string. *)
Lemma py_slice_lookup {A} (s : list A) (a b : Z) (i : nat) :
  0 <= a <= Z.of_nat i -> Z.of_nat i < b ->
  py_slice s a b !! (i - Z.to_nat a)%nat = s !! i.
Proof.
  intros Ha Hb. destruct (s !! i) as [x|] eqn:Hx.
  - pose proof (lookup_lt_Some _ _ _ Hx) as Hlt.
    unfold py_slice, slice_bound, py_len.
    destruct (Z.ltb_spec a 0); [lia|]. destruct (Z.ltb_spec b 0); [lia|].
    rewrite lookup_take_lt by lia. rewrite lookup_drop.
    replace (Z.to_nat (Z.min a (Z.of_nat (length s))) + (i - Z.to_nat a))%nat
      with i by lia. done.
  - pose proof (lookup_ge_None_1 _ _ Hx) as Hge.
    apply lookup_ge_None_2.
    assert (Hl := py_slice_length s a b). unfold py_len, slice_bound in Hl.
    destruct (Z.ltb_spec a 0); [lia|]. destruct (Z.ltb_spec b 0); lia.
Qed.

(** For a chunk size that is not negative a slice of that width, taken
    anywhere (also from a negative start), has at most that many
    characters. *)
Lemma py_slice_width_le {A} (l : list A) (i n : Z) :
  0 <= n -> py_len (py_slice l i (i + n)) <= n.
Proof.
  intros Hn. rewrite py_slice_length. unfold slice_bound.
  pose proof (py_len_nonneg l).
  destruct (Z.ltb_spec (i + n) 0); destruct (Z.ltb_spec i 0); lia.
Qed.

(** *** The window of one iteration *)

(** The chunk of a window is the slice from its start to its end, and
    the end is [start + chunk_size] unless the window was cut at a break,
    in which case it is lower, more than half a chunk size past the start,
    and inside the text. *)
Lemma window_end_bounds (txt : text) (s st : Z) :
  0 <= s ->
  snd (window txt s st) = py_slice txt st (fst (window txt s st)) /\
  (fst (window txt s st) = st + s \/
   (st + s < py_len txt /\ fst (window txt s st) <= st + s /\
    s < 2 * (fst (window txt s st) - st - 1))).
Proof.
  intros Hs. unfold window, past_halfway.
  set (raw := py_slice txt st (st + s)).
  pose proof (py_slice_width_le txt st s Hs) as Hraw. fold raw in Hraw.
  pose proof (py_rfind_lt_len dot raw) as Hd.
  pose proof (py_rfind_lt_len newline raw) as Hn.
  set (lb := Z.max (py_rfind dot raw) (py_rfind newline raw)) in *.
  destruct (Z.ltb_spec (st + s) (py_len txt)); [|by split; [|left]].
  destruct (Z.ltb_spec s (2 * lb)); cbn [fst snd]; [|by split; [|left]].
  split; [done|]. right. lia.
Qed.

Lemma chunk_step_unfold (txt : text) (s o : Z) (st : loop_state) :
  let e := fst (window txt s (start st)) in
  let c := py_slice txt (start st) e in
  0 <= s ->
  chunk_step txt s o st =
  LoopState (if e <? py_len txt then e - o else py_len txt)
            (if truthy (py_strip c) then chunks st ++ [py_strip c] else chunks st).
Proof.
  intros e c Hs. unfold chunk_step.
  destruct (window_end_bounds txt s (start st) Hs) as [Hc _].
  destruct (window txt s (start st)) as [e' c'] eqn:Ew. cbn [fst snd] in *.
  subst c'. done.
Qed.

(** X2.  A text that is empty or holds whitespace only gives no chunk:
    [chunk_text] returns the empty list at once, whatever the chunk size
    and the overlap. *)
Theorem chunk_text_blank_text_no_chunks (fuel : nat) (txt : text) (s o : Z) :
  forallb is_space txt = true ->
  chunk_text fuel txt s o = Some [].
Proof.
  intros H. unfold chunk_text. rewrite (py_strip_blank _ H).
  cbn [truthy negb]. by rewrite orb_true_r.
Qed.

Lemma chunk_text_blank_text_no_chunks_witness :
  chunk_text 0 (of_string "   ") 500 50 = Some [].
Proof.
  apply (chunk_text_blank_text_no_chunks 0 (of_string "   ") 500 50).
  reflexivity.
Defined.

(** A chunk that is the [strip] of a slice of the text, and so a
    contiguous part of it. *)
Lemma strip_slice_infix (txt : text) (a b : Z) :
  exists pre post, txt = pre ++ py_strip (py_slice txt a b) ++ post.
Proof.
  destruct (py_slice_infix txt a b) as (p1 & q1 & E1).
  destruct (py_strip_infix (py_slice txt a b)) as (p2 & q2 & E2).
  exists (p1 ++ p2), (q2 ++ q1).
  rewrite E1 at 1. rewrite E2 at 1. by rewrite <- !app_assoc.
Qed.

Lemma chunk_step_chunks_from_text (txt : text) (s o : Z) (st : loop_state) :
  Forall (fun c => exists a b, c = py_strip (py_slice txt a b)) (chunks st) ->
  Forall (fun c => exists a b, c = py_strip (py_slice txt a b))
         (chunks (chunk_step txt s o st)).
Proof.
  intros H. unfold chunk_step, window.
  repeat match goal with
         | |- context [if ?b then _ else _] => destruct b
         end; cbn [chunks]; try done;
    (apply Forall_app; split; [done|]; apply Forall_cons; split; [eauto|done]).
Qed.

Lemma iterate_chunks_from_text (n : nat) (txt : text) (s o : Z) (st : loop_state) :
  Forall (fun c => exists a b, c = py_strip (py_slice txt a b)) (chunks st) ->
  Forall (fun c => exists a b, c = py_strip (py_slice txt a b))
         (chunks (iterate n txt s o st)).
Proof.
  revert st. induction n as [|n IH]; intros st H; [done|].
  apply IH. by apply chunk_step_chunks_from_text.
Qed.

(** X3.  [chunk_text] makes up no text: every chunk it returns, for any
    chunk size and overlap, is the [strip] of a slice of the input, and so
    a contiguous part of the input. *)
Theorem chunk_text_chunks_are_parts_of_text
    (fuel : nat) (txt : text) (s o : Z) (cs : list text) :
  chunk_text fuel txt s o = Some cs ->
  Forall (fun c => (exists a b, c = py_strip (py_slice txt a b)) /\
                   (exists pre post, txt = pre ++ c ++ post)) cs.
Proof.
  unfold chunk_text.
  destruct (negb (truthy txt) || negb (truthy (py_strip txt))).
  { by intros [= <-]. }
  intros H. destruct (chunk_loop_iterate _ _ _ _ _ _ H) as (n & _ & -> & _).
  eapply Forall_impl; [apply iterate_chunks_from_text; constructor|].
  intros c (a & b & ->). split; [eauto|apply strip_slice_infix].
Qed.

Lemma chunk_text_chunks_are_parts_of_text_witness :
  Forall (fun c => (exists a b, c = py_strip (py_slice
                      (of_string " One. Two two two.  Three ") a b)) /\
                   (exists pre post,
                      of_string " One. Two two two.  Three " = pre ++ c ++ post))
    [of_string "One. Two tw"; of_string "two two."; of_string "o.  Three"].
Proof.
  apply (chunk_text_chunks_are_parts_of_text 5
           (of_string " One. Two two two.  Three ") 12 2).
  reflexivity.
Defined.


(** *** Coverage *)

Lemma chunk_step_covers (txt : text) (s o : Z) (st : loop_state) (k : Z) :
  0 <= o -> o < s -> o <= s / 2 + 1 ->
  0 <= start st < py_len txt -> start st <= k ->
  (forall (i : nat) c, Z.of_nat i < k -> txt !! i = Some c -> is_space c = false ->
     exists a b, 0 <= a <= Z.of_nat i /\ Z.of_nat i < b /\
                 py_strip (py_slice txt a b) ∈ chunks st) ->
  exists k',
    start st < start (chunk_step txt s o st) /\
    start (chunk_step txt s o st) <= k' /\
    (forall (i : nat) c, Z.of_nat i < k' -> txt !! i = Some c ->
       is_space c = false ->
       exists a b, 0 <= a <= Z.of_nat i /\ Z.of_nat i < b /\
                   py_strip (py_slice txt a b) ∈ chunks (chunk_step txt s o st)).
Proof.
  intros Ho Hos Hhalf Hst Hk Hcov.
  assert (Hs : 0 <= s) by lia.
  assert (Hdiv : 2 * (s / 2) <= s) by (apply Z.mul_div_le; lia).
  rewrite (chunk_step_unfold txt s o st Hs). cbn [start chunks].
  destruct (window_end_bounds txt s (start st) Hs) as [_ He].
  set (e := fst (window txt s (start st))) in *.
  set (c0 := py_slice txt (start st) e).
  exists (Z.max k (Z.min e (py_len txt))).
  split; [destruct (Z.ltb_spec e (py_len txt)); lia|].
  split; [destruct (Z.ltb_spec e (py_len txt)); lia|].
  intros i c Hi Hc Hsp.
  destruct (Z.lt_ge_cases (Z.of_nat i) k) as [Hold|Hnew].
  - destruct (Hcov i c Hold Hc Hsp) as (a & b & Ha & Hb & Hin).
    exists a, b. split; [done|]. split; [done|].
    destruct (truthy (py_strip c0)); [|done].
    apply elem_of_app. by left.
  - assert (Hie : Z.of_nat i < e) by lia.
    assert (Hin : c ∈ c0).
    { apply list_elem_of_lookup. exists (i - Z.to_nat (start st))%nat.
      unfold c0. rewrite py_slice_lookup by lia. done. }
    pose proof (py_strip_keeps _ _ Hin Hsp) as Hin'.
    exists (start st), e. split; [lia|]. split; [done|].
    fold c0. destruct (py_strip c0) eqn:E; [by apply elem_of_nil in Hin'|].
    cbn [truthy]. apply elem_of_app. right. by apply list_elem_of_singleton.
Qed.

Lemma chunk_loop_covers (fuel : nat) (txt : text) (s o : Z) :
  0 <= o -> o < s -> o <= s / 2 + 1 ->
  forall (st : loop_state) (k : Z) (cs : list text),
    0 <= start st -> start st <= k ->
    (forall (i : nat) c, Z.of_nat i < k -> txt !! i = Some c ->
       is_space c = false ->
       exists a b, 0 <= a <= Z.of_nat i /\ Z.of_nat i < b /\
                   py_strip (py_slice txt a b) ∈ chunks st) ->
    chunk_loop fuel txt s o st = Some cs ->
    forall (i : nat) c, txt !! i = Some c -> is_space c = false ->
      exists a b, 0 <= a <= Z.of_nat i /\ Z.of_nat i < b /\
                  py_strip (py_slice txt a b) ∈ cs.
Proof.
  intros Ho Hos Hhalf.
  induction fuel as [|fuel IH]; intros st k cs H0 Hk Hcov; simpl;
    destruct (Z.ltb_spec (start st) (py_len txt)) as [Hlt|Hge]; try done.
  - intros [= <-] i c Hc Hsp. apply (Hcov i c); [|done|done].
    pose proof (lookup_lt_Some _ _ _ Hc). unfold py_len in *. lia.
  - destruct (chunk_step_covers txt s o st k Ho Hos Hhalf) as (k' & Hadv & Hk' & Hcov');
      [lia|done|done|].
    apply (IH _ k'); [lia|done|done].
  - intros [= <-] i c Hc Hsp. apply (Hcov i c); [|done|done].
    pose proof (lookup_lt_Some _ _ _ Hc). unfold py_len in *. lia.
Qed.

Lemma not_blank_has_char (s : text) :
  py_strip s <> [] -> exists (i : nat) c, s !! i = Some c /\ is_space c = false.
Proof.
  intros H. destruct (forallb is_space s) eqn:E.
  { by rewrite (py_strip_blank _ E) in H. }
  clear H. induction s as [|x r IH]; [done|]. simpl in E.
  destruct (is_space x) eqn:Ex.
  - destruct (IH E) as (i & c & Hi & Hc). by exists (S i), c.
  - by exists O, x.
Qed.

(** X4.  With an overlap that is not negative, below the chunk size and
    at most [chunk_size // 2 + 1], no part of the text is lost: every
    character of the text that is not whitespace lies in a window
    [text[a:b]] whose stripped slice is one of the returned chunks, and
    stays in that chunk.  In particular a text that is not blank gives at
    least one chunk. *)
Theorem chunk_text_covers_text
    (fuel : nat) (txt : text) (s o : Z) (cs : list text) :
  0 <= o -> o < s -> o <= s / 2 + 1 ->
  chunk_text fuel txt s o = Some cs ->
  (forall (i : nat) c, txt !! i = Some c -> is_space c = false ->
     exists a b, 0 <= a <= Z.of_nat i /\ Z.of_nat i < b /\
                 py_strip (py_slice txt a b) ∈ cs /\
                 c ∈ py_strip (py_slice txt a b)) /\
  (py_strip txt <> [] -> cs <> []).
Proof.
  intros Ho Hos Hhalf Hrun.
  assert (Hcov : forall (i : nat) c, txt !! i = Some c -> is_space c = false ->
     exists a b, 0 <= a <= Z.of_nat i /\ Z.of_nat i < b /\
                 py_strip (py_slice txt a b) ∈ cs /\
                 c ∈ py_strip (py_slice txt a b)).
  { intros i c Hc Hsp.
    assert (Hkeep : forall a b, 0 <= a <= Z.of_nat i -> Z.of_nat i < b ->
              c ∈ py_strip (py_slice txt a b)).
    { intros a b Ha Hb. apply py_strip_keeps; [|done].
      apply list_elem_of_lookup. exists (i - Z.to_nat a)%nat.
      by rewrite py_slice_lookup. }
    unfold chunk_text in Hrun.
    destruct (negb (truthy txt) || negb (truthy (py_strip txt))) eqn:Hb.
    - exfalso. assert (Hin : c ∈ py_strip txt).
      { apply py_strip_keeps; [|done]. apply list_elem_of_lookup. eauto. }
      destruct txt as [|x r]; [done|]. cbn [truthy negb orb] in Hb.
      destruct (py_strip (x :: r)); [by apply elem_of_nil in Hin|done].
    - destruct (chunk_loop_covers fuel txt s o Ho Hos Hhalf (LoopState 0 []) 0 cs)
        with (i := i) (c := c) as (a & b & Ha & Hb' & Hin); try done.
      { cbn [start]. intros; lia. }
      exists a, b. eauto. }
  split; [done|].
  intros Hne ->. destruct (not_blank_has_char _ Hne) as (i & c & Hc & Hsp).
  destruct (Hcov i c Hc Hsp) as (a & b & _ & _ & Hin & _).
  by apply elem_of_nil in Hin.
Qed.

Lemma chunk_text_covers_text_witness :
  exists a b, 0 <= a <= Z.of_nat 10 /\ Z.of_nat 10 < b /\
    py_strip (py_slice (of_string " One. Two two two.  Three ") a b)
      ∈ [of_string "One. Two tw"; of_string "two two."; of_string "o.  Three"] /\
    116%N ∈ py_strip (py_slice (of_string " One. Two two two.  Three ") a b).
Proof.
  apply (proj1 (chunk_text_covers_text 5
                  (of_string " One. Two two two.  Three ") 12 2 _
                  ltac:(lia) ltac:(lia) ltac:(by vm_compute) eq_refl) 10%nat).
  - reflexivity.
  - reflexivity.
Defined.

(** *** Termination *)

(** More iterations than needed change nothing. *)
Lemma chunk_loop_more_fuel (fuel k : nat) (txt : text) (s o : Z)
    (st : loop_state) (cs : list text) :
  chunk_loop fuel txt s o st = Some cs ->
  chunk_loop (fuel + k) txt s o st = Some cs.
Proof.
  revert st. induction fuel as [|fuel IH]; intros st; simpl.
  - destruct (Z.ltb_spec (start st) (py_len txt)) as [Hlt|Hge]; [done|].
    intros [= <-]. destruct k; simpl;
      by destruct (Z.ltb_spec (start st) (py_len txt)); [lia|].
  - destruct (Z.ltb_spec (start st) (py_len txt)); [apply IH|done].
Qed.

(** X1.  For a chunk size that is not negative and an overlap below it
    and at most [chunk_size // 2 + 1] (which the configured 500 and 50
    meet), [chunk_text] returns on every text: the loop ends within
    [len(text)] iterations with one and the same list however many more
    are allowed, and no chunk of that list is longer than the chunk
    size. *)
Theorem chunk_text_returns_within_length (txt : text) (s o : Z) :
  0 <= s -> o < s -> o <= s / 2 + 1 ->
  exists cs,
    (forall fuel, (length txt <= fuel)%nat -> chunk_text fuel txt s o = Some cs) /\
    Forall (fun c => py_len c <= s) cs.
Proof.
  intros Hs Hos Hhalf. unfold chunk_text.
  destruct (negb (truthy txt) || negb (truthy (py_strip txt))); [by exists []|].
  destruct (chunk_loop_terminates (length txt) txt s o (LoopState 0 []) Hs Hos Hhalf)
    as (cs & Hrun & Hlen); [done|cbn; unfold py_len; lia|done|].
  exists cs. split; [|done]. intros fuel Hfuel.
  replace fuel with (length txt + (fuel - length txt))%nat by lia.
  by apply chunk_loop_more_fuel.
Qed.

Lemma chunk_text_returns_within_length_witness :
  exists cs,
    (forall fuel,
       (length (of_string "Hello world. This is a test. More text here and there")
          <= fuel)%nat ->
       chunk_text fuel
         (of_string "Hello world. This is a test. More text here and there")
         500 50 = Some cs) /\
    Forall (fun c => py_len c <= 500) cs.
Proof.
  apply (chunk_text_returns_within_length
           (of_string "Hello world. This is a test. More text here and there")
           500 50); [lia|lia|by vm_compute].
Defined.

(** *** An overlap that is not below the chunk size *)

Lemma chunk_step_stays_back (txt : text) (s o : Z) (st : loop_state) :
  0 <= s -> s < py_len txt -> s <= o -> start st <= 0 ->
  start (chunk_step txt s o st) <= 0.
Proof.
  intros Hs Hlen Hos Hst. rewrite (chunk_step_unfold txt s o st Hs). cbn [start].
  destruct (window_end_bounds txt s (start st) Hs) as [_ He].
  destruct (Z.ltb_spec (fst (window txt s (start st))) (py_len txt)); lia.
Qed.

Lemma chunk_loop_stays_back (fuel : nat) (txt : text) (s o : Z) (st : loop_state) :
  0 <= s -> s < py_len txt -> s <= o -> start st <= 0 ->
  chunk_loop fuel txt s o st = None.
Proof.
  intros Hs Hlen Hos. revert st.
  induction fuel as [|fuel IH]; intros st Hst; simpl;
    destruct (Z.ltb_spec (start st) (py_len txt)); try done; try lia.
  apply IH. by apply chunk_step_stays_back.
Qed.

(** X5.  When the overlap is not below the chunk size, [chunk_text] does
    not return on any text that is not blank and is longer than the chunk
    size: [start] never gets past [0], so the loop condition holds for
    ever. *)
Theorem chunk_text_overlap_not_below_size_diverges
    (fuel : nat) (txt : text) (s o : Z) :
  0 <= s -> s <= o -> s < py_len txt -> py_strip txt <> [] ->
  chunk_text fuel txt s o = None.
Proof.
  intros Hs Hos Hlen Hne. unfold chunk_text.
  destruct txt as [|x r]; [done|]. cbn [truthy negb orb].
  destruct (py_strip (x :: r)); [done|]. cbn [truthy negb].
  by apply chunk_loop_stays_back.
Qed.

Lemma chunk_text_overlap_not_below_size_diverges_witness :
  chunk_text 1000 (of_string "abcdefghij") 4 4 = None.
Proof.
  apply (chunk_text_overlap_not_below_size_diverges 1000
           (of_string "abcdefghij") 4 4); [lia|lia|by vm_compute|by vm_compute].
Defined.


End ChunkerMore.

(** ** More on the services *)

Module PipelineMore.
Import Pipeline PipelineFacts.

(** *** _create_context *)

Lemma py_slice_first (n : nat) {A} (l : list A) :
  py_slice l 0 (Z.of_nat n) = take n l.
Proof.
  unfold py_slice, slice_bound, py_len.
  destruct (Z.ltb_spec 0 0); [lia|]. destruct (Z.ltb_spec (Z.of_nat n) 0); [lia|].
  replace (Z.min 0 (Z.of_nat (length l))) with 0 by lia.
  rewrite Z.sub_0_r. change (Z.to_nat 0) with 0%nat. rewrite drop_0.
  destruct (Nat.le_gt_cases n (length l)).
  - by rewrite Z.min_l, Nat2Z.id by lia.
  - rewrite Z.min_r, Nat2Z.id by lia. by rewrite !take_ge by lia.
Qed.

Lemma foldl_context_entries (l : list text) (k : Z) (acc : text) :
  foldl (fun context '(i, doc) =>
           context ++ str_of_int i ++ of_string ". " ++ doc
                   ++ [newline; newline]) acc (enumerate k l)
  = acc ++ concat (imap (fun i doc =>
                           str_of_int (k + Z.of_nat i) ++ of_string ". " ++ doc
                             ++ [newline; newline]) l).
Proof.
  revert k acc. induction l as [|d l IH]; intros k acc.
  - cbn. by rewrite app_nil_r.
  - cbn [enumerate foldl]. rewrite IH, imap_cons. cbn [concat].
    rewrite <- app_assoc, Z.add_0_r. do 2 f_equal. f_equal.
    apply imap_ext. intros i x _. cbn. do 2 f_equal. lia.
Qed.

(** X6.  The context of no document is the empty string.  The context of
    a non-empty list is ["Context:\n"] followed by one entry per document
    among the first five, numbered from 1 in their order, each of the form
    ["<i>. <doc>\n\n"]; documents after the fifth play no part. *)
Theorem create_context_first_five (docs : list text) :
  _create_context [] = [] /\
  (docs <> [] ->
   _create_context docs =
     of_string "Context:" ++ [newline] ++
     concat (imap (fun i doc =>
                     str_of_int (1 + Z.of_nat i) ++ of_string ". " ++ doc
                       ++ [newline; newline]) (take 5 docs))) /\
  _create_context docs = _create_context (take 5 docs).
Proof.
  assert (Hform : forall ds, ds <> [] ->
    _create_context ds =
      of_string "Context:" ++ [newline] ++
      concat (imap (fun i doc =>
                      str_of_int (1 + Z.of_nat i) ++ of_string ". " ++ doc
                        ++ [newline; newline]) (take 5 ds))).
  { intros ds Hne. unfold _create_context. destruct ds as [|d ds]; [done|].
    cbn [truthy negb]. rewrite (py_slice_first 5), foldl_context_entries.
    by rewrite <- app_assoc. }
  split; [done|]. split; [apply Hform|].
  destruct docs as [|d ds]; [done|].
  rewrite (Hform (d :: ds)), (Hform (take 5 (d :: ds))) by done.
  by rewrite take_take.
Qed.

Lemma create_context_first_five_witness :
  _create_context [of_string "a"; of_string "b"] =
  of_string "Context:" ++ [newline] ++
  of_string "1. a" ++ [newline; newline] ++ of_string "2. b" ++ [newline; newline].
Proof.
  etransitivity.
  - apply (proj1 (proj2 (create_context_first_five [of_string "a"; of_string "b"]))).
    discriminate.
  - reflexivity.
Defined.

Section More.
Context `{Backend}.

Ltac no_such H :=
  repeat (apply elem_of_cons in H as [H|H]; [discriminate|]);
  by apply elem_of_nil in H.

(** *** get_chatbot_service *)

(** X7.  The chatbot service is built once.  A call of
    [get_chatbot_service] that returns leaves [_chatbot_service] set; it
    loads the model exactly when the service was not set before; and any
    later call returns without loading anything.  A call that raises
    leaves the service unset, so the next call loads again. *)
Theorem get_chatbot_service_loads_once (w w1 : world) :
  (get_chatbot_service w = (Ok tt, w1) ->
     chatbot_service w1 = true /\
     get_chatbot_service w1 = (Ok tt, w1) /\
     (chatbot_service w = true -> w1 = w) /\
     (chatbot_service w = false -> history w1 = history w ++ [LoadModel])) /\
  (forall e, get_chatbot_service w = (Raise e, w1) ->
     chatbot_service w = false /\ chatbot_service w1 = false /\
     history w1 = history w ++ [LoadModel]).
Proof.
  unfold get_chatbot_service, perform. split.
  - destruct (chatbot_service w) eqn:Ew.
    + intros [= <-]. rewrite Ew. done.
    + destruct (load_model (history w)) as [[]|e]; [|done].
      cbn [history]. intros [= <-]. cbn. done.
  - intros e. destruct (chatbot_service w) eqn:Ew; [done|].
    destruct (load_model (history w)) as [[]|e']; [done|].
    intros [= -> <-]. done.
Qed.

(** *** answer_question *)

(** Every way [answer_question] can go. *)
Lemma answer_question_cases (subject_id question : text) (n_results : Z)
    (w : world) :
  (exists e w1,
     query_documents subject_id question n_results w = (Raise e, w1) /\
     answer_question subject_id question n_results w = (Raise e, w1)) \/
  exists r w1,
    query_documents subject_id question n_results w = (Ok r, w1) /\
    ((documents r = [] /\
      answer_question subject_id question n_results w =
        (Ok (AnswerRecord sentinel []), w1)) \/
     (documents r <> [] /\
      let prompt := prompt_of question (_create_context (documents r)) in
      ((exists e w2, run_model prompt w1 = (Raise e, w2) /\
          answer_question subject_id question n_results w = (Raise e, w2)) \/
       (exists a w2, run_model prompt w1 = (Ok a, w2) /\
          answer_question subject_id question n_results w =
            (Ok (AnswerRecord
                   (if negb (truthy a) || (py_len (py_strip a) <? 3)
                    then sentinel else a)
                   (extract_sources (metadatas r))), w2))))).
Proof.
  rewrite answer_question_unfold.
  destruct (query_documents subject_id question n_results w) as [[r|e] w1].
  - right. exists r, w1. split; [done|].
    destruct (documents r) as [|d ds] eqn:Ed; [by left|]. right. split; [done|].
    cbn [truthy negb orb].
    destruct (Z.eqb_spec (py_len (d :: ds)) 0) as [E|_]; [done|].
    rewrite generate_answer_unfold by by apply create_context_truthy.
    destruct (run_model (prompt_of question (_create_context (d :: ds))) w1)
      as [[a|e] w2]; [right|left]; eauto.
  - left. by exists e, w1.
Qed.

(** What a model run adds to the history. *)
Lemma run_model_calls (prompt : text) (w w' : world) res :
  run_model prompt w = (res, w') ->
  chatbot_service w' = chatbot_service w /\
  exists cs, history w' = history w ++ cs /\
             (cs = [Tokenize prompt] \/ cs = [Tokenize prompt; Generate] \/
              cs = [Tokenize prompt; Generate; Decode]) /\
             (forall a, res = Ok a -> cs = [Tokenize prompt; Generate; Decode]).
Proof.
  unfold run_model, bind, perform. cbn [history chatbot_service].
  destruct (tokenizer_call (history w) prompt) as [inputs|e].
  - destruct (model_generate (history w ++ [Tokenize prompt]) inputs) as [outputs|e].
    + intros [= <- <-]. cbn. split; [done|]. eexists.
      rewrite <- !app_assoc. split; [done|]. split; [by right; right|done].
    + intros [= <- <-]. cbn. split; [done|]. eexists.
      rewrite <- !app_assoc. split; [done|]. split; [by right; left|done].
  - intros [= <- <-]. cbn. split; [done|]. eexists. split; [done|].
    split; [by left|done].
Qed.

(** X8.  An answer costs one model run at most, made after retrieval.
    When [answer_question] returns, either retrieval gave no chunk and the
    world is the one retrieval left, or it gave chunks and the history is
    that of retrieval followed by exactly one tokenize, one generate and
    one decode, on the prompt built from the question and the context of
    the retrieved documents. *)
Theorem answer_question_one_model_run
    (subject_id question : text) (n_results : Z) (w w' : world)
    (rec : answer_record) :
  answer_question subject_id question n_results w = (Ok rec, w') ->
  exists r w1,
    query_documents subject_id question n_results w = (Ok r, w1) /\
    chatbot_service w' = chatbot_service w /\
    ((documents r = [] /\ w' = w1) \/
     (documents r <> [] /\
      history w' =
        history w1 ++
        [Tokenize (prompt_of question (_create_context (documents r)));
         Generate; Decode])).
Proof.
  intros Hrun.
  destruct (answer_question_cases subject_id question n_results w)
    as [(e & w1 & _ & Ha)|(r & w1 & Hq & Hc)]; [congruence|].
  destruct (query_documents_calls _ _ _ _ _ _ Hq) as [Hcs _].
  exists r, w1. split; [done|].
  destruct Hc as [[Hd Ha]|[Hd [(e & w2 & _ & Ha)|(a & w2 & Hm & Ha)]]];
    rewrite Ha in Hrun; [|done|].
  - injection Hrun as <- <-. split; [done|]. by left.
  - injection Hrun as <- <-.
    destruct (run_model_calls _ _ _ _ Hm) as (Hcs' & cs & Hh & _ & Hok).
    split; [congruence|]. right. split; [done|].
    by rewrite Hh, (Hok a eq_refl).
Qed.

(** X9.  A failure of the generation model is not recovered: when
    retrieval gave chunks and the model run raises, [answer_question]
    raises that same exception (whereas a failure of the vector store is
    caught inside [query_documents]). *)
Theorem answer_question_model_failure_propagates
    (subject_id question : text) (n_results : Z) (w w1 w2 : world)
    (r : retrieval distance) (e : exn) :
  query_documents subject_id question n_results w = (Ok r, w1) ->
  documents r <> [] ->
  run_model (prompt_of question (_create_context (documents r))) w1
    = (Raise e, w2) ->
  answer_question subject_id question n_results w = (Raise e, w2).
Proof.
  intros Hq Hd Hm.
  destruct (answer_question_cases subject_id question n_results w)
    as [(e' & w1' & Hq' & _)|(r' & w1' & Hq' & Hc)]; [congruence|].
  rewrite Hq in Hq'. injection Hq' as <- <-.
  destruct Hc as [[Hd' _]|[_ [(e' & w2' & Hm' & Ha)|(a & w2' & Hm' & _)]]];
    [done| |cbv zeta in Hm'; congruence].
  cbv zeta in Hm'. rewrite Hm in Hm'. by injection Hm' as <- <-.
Qed.

(** *** ask_question *)

Lemma validate_sources_Some (l : list meta_value) (srcs : list text) :
  validate_sources l = Some srcs -> l = MStr <$> srcs.
Proof.
  unfold validate_sources. intros Hm. apply mapM_Some_1 in Hm.
  induction Hm as [|x y l k Hxy _ IH]; [done|].
  destruct x; [|done]. injection Hxy as ->. cbn. by f_equal.
Qed.

Lemma validate_sources_NoDup (l : list meta_value) (srcs : list text) :
  validate_sources l = Some srcs -> NoDup l -> NoDup srcs.
Proof.
  intros Hv Hnd. rewrite (validate_sources_Some _ _ Hv) in Hnd.
  by apply NoDup_fmap_1 in Hnd.
Qed.

(** [ask_question] for a subject that has documents. *)
Lemma ask_question_unfold (subjects : gmap text subject) (request : ChatRequest)
    (s : subject) (w : world) :
  subjects !! req_subject_id request = Some s ->
  has_no_documents s = false ->
  ask_question subjects request w =
  match get_chatbot_service w with
  | (Raise e, w0) =>
      (HTTPException 500 (of_string "Error processing question: " ++ str_exn e), w0)
  | (Ok _, w0) =>
      match answer_question (req_subject_id request) (req_question request) 5 w0 with
      | (Raise e, w1) =>
          (HTTPException 500
             (of_string "Error processing question: " ++ str_exn e), w1)
      | (Ok rec, w1) =>
          match validate_sources (sources rec) with
          | Some srcs =>
              (Respond (MkChatResponse (req_subject_id request)
                          (req_question request) (answer rec) srcs), w1)
          | None =>
              (HTTPException 500
                 (of_string "Error processing question: "
                    ++ str_exn (response_validation_error (sources rec))), w1)
          end
      end
  end.
Proof.
  intros Hs Hd. unfold ask_question, ask_question_try, bind, ret.
  rewrite Hs, Hd.
  destruct (get_chatbot_service w) as [[[]|e] w0]; [|done].
  destruct (answer_question (req_subject_id request) (req_question request) 5 w0)
    as [[rec|e] w1]; [|done].
  by destruct (validate_sources (sources rec)).
Qed.

(** X10.  A failing generation model fails the request: for a subject
    with documents, once the service is there and retrieval has given
    chunks, a model run that raises makes [ask_question] end with status
    500 and the detail ["Error processing question: "] followed by the
    text of the exception. *)
Theorem ask_question_model_failure_is_500
    (subjects : gmap text subject) (request : ChatRequest) (s : subject)
    (w w0 w1 w2 : world) (r : retrieval distance) (e : exn) :
  subjects !! req_subject_id request = Some s ->
  has_no_documents s = false ->
  get_chatbot_service w = (Ok tt, w0) ->
  query_documents (req_subject_id request) (req_question request) 5 w0
    = (Ok r, w1) ->
  documents r <> [] ->
  run_model (prompt_of (req_question request) (_create_context (documents r))) w1
    = (Raise e, w2) ->
  ask_question subjects request w =
    (HTTPException 500 (of_string "Error processing question: " ++ str_exn e), w2).
Proof.
  intros Hs Hd Hg Hq Hdocs Hm.
  rewrite (ask_question_unfold _ _ _ _ Hs Hd), Hg.
  destruct (answer_question_cases (req_subject_id request) (req_question request)
              5 w0) as [(e' & w1' & Hq' & _)|(r' & w1' & Hq' & Hc)]; [congruence|].
  rewrite Hq in Hq'. injection Hq' as <- <-.
  destruct Hc as [[Hd' _]|[_ Hc]]; [done|]. cbv zeta in Hc.
  destruct Hc as [(e' & w2' & Hm' & ->)|(a & w2' & Hm' & _)]; [|congruence].
  rewrite Hm in Hm'. by injection Hm' as <- <-.
Qed.

(** X11.  A failing vector store fails the request only when the error
    cannot be printed.  For a subject with documents, once the service is
    there, let the guarded body of retrieval raise [e]; the handler prints
    the message of [e].  If that [print] returns, [ask_question] answers
    (status 200) with the sentinel and no sources; if it raises [e'],
    [ask_question] ends with status 500 and the detail
    ["Error processing question: "] followed by the text of [e'].  Either
    way the history ends with the [print] and the model is not run. *)
Theorem ask_question_store_failure_sentinel_if_printed
    (subjects : gmap text subject) (request : ChatRequest) (s : subject)
    (w w0 w1 : world) (e : exn) :
  subjects !! req_subject_id request = Some s ->
  has_no_documents s = false ->
  get_chatbot_service w = (Ok tt, w0) ->
  query_documents_try (req_subject_id request) (req_question request) 5 w0
    = (Raise e, w1) ->
  (forall u,
     stdout_print (history w1) (error_querying e) = Ok u ->
     ask_question subjects request w =
       (Respond (MkChatResponse (req_subject_id request) (req_question request)
                   sentinel []),
        World (history w1 ++ [Print (error_querying e)])
              (chatbot_service w1))) /\
  (forall e',
     stdout_print (history w1) (error_querying e) = Raise e' ->
     ask_question subjects request w =
       (HTTPException 500
          (of_string "Error processing question: " ++ str_exn e'),
        World (history w1 ++ [Print (error_querying e)])
              (chatbot_service w1))).
Proof.
  intros Hs Hd Hg Hq.
  rewrite (ask_question_unfold _ _ _ _ Hs Hd), Hg.
  rewrite answer_question_unfold, query_documents_unfold, Hq.
  split; [intros u ->|intros e' ->]; reflexivity.
Qed.

(** X12.  What [ask_question] can answer.  A response repeats the
    subject id and the question of the request, its answer has at least 3
    characters once stripped, and its sources hold no filename twice.  An
    error is a 404, raised for an unknown subject without any outside
    call, or a 500, raised only for a subject that has documents. *)
Theorem ask_question_outcomes
    (subjects : gmap text subject) (request : ChatRequest) (w w' : world) :
  (forall r, ask_question subjects request w = (Respond r, w') ->
     resp_subject_id r = req_subject_id request /\
     resp_question r = req_question request /\
     3 <= py_len (py_strip (resp_answer r)) /\
     NoDup (resp_sources r)) /\
  (forall code detail,
     ask_question subjects request w = (HTTPException code detail, w') ->
     (code = 404 /\ subjects !! req_subject_id request = None /\ w' = w) \/
     (code = 500 /\ exists s, subjects !! req_subject_id request = Some s /\
                              has_no_documents s = false)).
Proof.
  assert (Hs3 : 3 <= py_len (py_strip sentinel)) by (rewrite sentinel_length; lia).
  destruct (subjects !! req_subject_id request) as [s|] eqn:Hs.
  2:{ unfold ask_question. rewrite Hs. split; [done|].
      intros code detail [= <- <- <-]. by left. }
  destruct (has_no_documents s) eqn:Hd.
  { unfold ask_question. rewrite Hs, Hd. split; [|done].
    intros r [= <- <-]. cbn. repeat split; try done. constructor. }
  rewrite (ask_question_unfold _ _ _ _ Hs Hd).
  destruct (get_chatbot_service w) as [[[]|e] w0].
  2:{ split; [done|]. intros code detail [= <- <- <-]. right. eauto. }
  destruct (answer_question_cases (req_subject_id request) (req_question request)
              5 w0) as [(e & w1 & _ & ->)|(r & w1 & Hq & Hc)].
  { split; [done|]. intros code detail [= <- <- <-]. right. eauto. }
  destruct Hc as [[_ ->]|[Hdocs Hc]].
  { cbn. split; [|done]. intros r' [= <- <-]. cbn. repeat split; try done.
    constructor. }
  cbv zeta in Hc. destruct Hc as [(e & w2 & _ & ->)|(a & w2 & _ & ->)].
  { split; [done|]. intros code detail [= <- <- <-]. right. eauto. }
  cbn [sources answer].
  destruct (validate_sources (extract_sources (metadatas r))) as [srcs|] eqn:Hv.
  2:{ split; [done|]. intros code detail [= <- <- <-]. right. eauto. }
  split; [|done]. intros r' [= <- <-]. cbn. repeat split; try done.
  - destruct (negb (truthy a) || (py_len (py_strip a) <? 3)) eqn:Hshort; [done|].
    apply orb_false_elim in Hshort as [_ Hlen]. by apply Z.ltb_ge in Hlen.
  - apply (validate_sources_NoDup _ _ Hv).
    rewrite extract_sources_first_seen. apply first_seen_NoDup.
Qed.

(** *** query_documents: what is asked of the store *)

(** X13.  [query_documents] never asks the store for more neighbours than
    it was asked for, nor for more than the collection holds: a query call
    it makes carries [min(n_results, count)], where [count] is what the
    collection answered just before; and it embeds the query, and queries,
    only after the collection answered a count other than 0. *)
Theorem query_documents_clamps_n_results
    (subject_id query : text) (n_results : Z) (w w' : world) res
    (cs : list call) :
  query_documents subject_id query n_results w = (res, w') ->
  calls_between w w' cs ->
  (forall m, CollectionQuery m ∈ cs ->
     m <= n_results /\
     exists coll count',
       collection_count
         (history w ++ [GetOrCreateCollection (collection_name subject_id);
                        CollectionCount; Encode [query]]) coll = Ok count' /\
       m = Z.min n_results count') /\
  ((exists t, Encode t ∈ cs) \/ (exists m, CollectionQuery m ∈ cs) ->
     exists coll count,
       collection_count
         (history w ++ [GetOrCreateCollection (collection_name subject_id)]) coll
         = Ok count /\ count <> 0).
Proof.
  rewrite query_documents_unfold. unfold calls_between.
  pose proof (query_documents_try_cases subject_id query n_results w) as Hc.
  cbv zeta in Hc. rewrite <- !app_assoc in Hc. cbn [app] in Hc.
  intros Hres Hcs.
  assert (Hfin : forall (o : outcome (retrieval distance)) cs1,
    query_documents_try subject_id query n_results w
      = (o, World (history w ++ cs1) (chatbot_service w)) ->
    exists p, cs = cs1 ++ p /\ forall c, c ∈ p -> exists msg, c = Print msg).
  { intros o cs1 Ht. rewrite Ht in Hres. destruct o as [r|e];
      injection Hres as <- <-; cbn [history] in Hcs.
    - apply app_inv_head in Hcs as <-. exists []. split; [by rewrite app_nil_r|].
      intros c Hin. by apply elem_of_nil in Hin.
    - rewrite <- app_assoc in Hcs. apply app_inv_head in Hcs as <-.
      eexists. split; [done|]. intros c Hin.
      apply list_elem_of_singleton in Hin as ->. eauto. }
  assert (Hin : forall cs1 c,
    (exists p, cs = cs1 ++ p /\ forall c, c ∈ p -> exists msg, c = Print msg) ->
    c ∈ cs -> (forall msg, c <> Print msg) -> c ∈ cs1).
  { intros cs1 c (p & -> & Hp) Hc' Hnp.
    apply elem_of_app in Hc' as [?|Hc']; [done|].
    destruct (Hp _ Hc') as [msg ->]. by destruct (Hnp msg). }
  destruct Hc as [(e & E & Ht)|(coll & E0 & Hc)].
  { pose proof (Hfin _ _ Ht) as Hp. split.
    - intros m Hm. apply (Hin _ _ Hp) in Hm; [|done]. no_such Hm.
    - intros [[t Ht']|[m Hm]];
        [apply (Hin _ _ Hp) in Ht'; [no_such Ht'|done]
        |apply (Hin _ _ Hp) in Hm; [no_such Hm|done]]. }
  destruct Hc as [(e & E & Ht)|[[E Ht]|(count & E1 & Hcount & Hc)]].
  { pose proof (Hfin _ _ Ht) as Hp. split.
    - intros m Hm. apply (Hin _ _ Hp) in Hm; [|done]. no_such Hm.
    - intros [[t Ht']|[m Hm]];
        [apply (Hin _ _ Hp) in Ht'; [no_such Ht'|done]
        |apply (Hin _ _ Hp) in Hm; [no_such Hm|done]]. }
  { pose proof (Hfin _ _ Ht) as Hp. split.
    - intros m Hm. apply (Hin _ _ Hp) in Hm; [|done]. no_such Hm.
    - intros [[t Ht']|[m Hm]];
        [apply (Hin _ _ Hp) in Ht'; [no_such Ht'|done]
        |apply (Hin _ _ Hp) in Hm; [no_such Hm|done]]. }
  split; [|intros _; eauto].
  destruct Hc as [(e & E & Ht)|(emb & E2 & Hc)].
  { pose proof (Hfin _ _ Ht) as Hp.
    intros m Hm. apply (Hin _ _ Hp) in Hm; [|done]. no_such Hm. }
  destruct Hc as [(e & E & Ht)|(count' & E3 & Hc)].
  { pose proof (Hfin _ _ Ht) as Hp.
    intros m Hm. apply (Hin _ _ Hp) in Hm; [|done]. no_such Hm. }
  cbv zeta in Hc. rewrite <- !app_assoc in Hc. cbn [app] in Hc.
  assert (Hm' : forall m cs1,
    (exists p, cs = cs1 ++ p /\ forall c, c ∈ p -> exists msg, c = Print msg) ->
    cs1 = [GetOrCreateCollection (collection_name subject_id); CollectionCount;
           Encode [query]; CollectionCount;
           CollectionQuery (Z.min n_results count')] ->
    CollectionQuery m ∈ cs ->
    m <= n_results /\
    exists coll count'0,
      collection_count
        (history w ++ [GetOrCreateCollection (collection_name subject_id);
                       CollectionCount; Encode [query]]) coll = Ok count'0 /\
      m = Z.min n_results count'0).
  { intros m cs1 Hp -> Hm. apply (Hin _ _ Hp) in Hm; [|done].
    assert (m = Z.min n_results count') as ->.
    { repeat (apply elem_of_cons in Hm as [Hm|Hm];
              [first [discriminate | by injection Hm]|]).
      by apply elem_of_nil in Hm. }
    split; [lia|]. eauto. }
  destruct Hc as [(e & E & Ht)|(results & E4 & Ht)];
    intros m Hm; eapply Hm'; eauto.
Qed.


End More.
(** *** The theorems at concrete backends *)

Import Examples.

Lemma get_chatbot_service_loads_once_witness :
  @get_chatbot_service working_backend (World [LoadModel] true)
    = (Ok tt, World [LoadModel] true).
Proof.
  apply (proj1 (@get_chatbot_service_loads_once working_backend
                  initial_world (World [LoadModel] true))).
  reflexivity.
Defined.

Lemma answer_question_one_model_run_witness :
  exists r w1,
    @query_documents working_backend (of_string "s1") (of_string "What?") 5
      initial_world = (Ok r, w1) /\
    chatbot_service
      (World (retrieval_calls ++ [Tokenize what_prompt; Generate; Decode]) false)
      = chatbot_service initial_world /\
    ((documents r = [] /\
      World (retrieval_calls ++ [Tokenize what_prompt; Generate; Decode]) false
        = w1) \/
     (documents r <> [] /\
      history
        (World (retrieval_calls ++ [Tokenize what_prompt; Generate; Decode]) false)
      = history w1 ++
        [Tokenize (prompt_of (of_string "What?") (_create_context (documents r)));
         Generate; Decode])).
Proof.
  apply (@answer_question_one_model_run working_backend (of_string "s1")
           (of_string "What?") 5 initial_world
           (World (retrieval_calls ++ [Tokenize what_prompt; Generate; Decode])
                  false)
           (AnswerRecord (of_string "Paris")
              [MStr (of_string "A.pdf"); MStr (of_string "B.pdf")])).
  vm_compute. reflexivity.
Defined.

Lemma answer_question_model_failure_propagates_witness :
  @answer_question failing_model_backend (of_string "s1") (of_string "What?") 5
    initial_world =
  (Raise (Exception (of_string "out of memory")),
   World (retrieval_calls ++ [Tokenize what_prompt; Generate; Decode]) false).
Proof.
  apply (@answer_question_model_failure_propagates failing_model_backend
           (of_string "s1") (of_string "What?") 5 initial_world
           (World retrieval_calls false) _
           (Retrieval four_chunks two_files [tt; tt; tt; tt])).
  - vm_compute. reflexivity.
  - discriminate.
  - vm_compute. reflexivity.
Defined.

Lemma ask_question_model_failure_is_500_witness :
  @ask_question failing_model_backend (registry_of history_subject) what
    initial_world =
  (HTTPException 500
     (of_string "Error processing question: "
        ++ str_exn (Exception (of_string "out of memory"))),
   World ([LoadModel] ++ retrieval_calls ++ [Tokenize what_prompt; Generate; Decode])
         true).
Proof.
  apply (@ask_question_model_failure_is_500 failing_model_backend
           (registry_of history_subject) what history_subject initial_world
           (World [LoadModel] true)
           (World ([LoadModel] ++ retrieval_calls) true) _
           (Retrieval four_chunks two_files [tt; tt; tt; tt])).
  - vm_compute. reflexivity.
  - reflexivity.
  - reflexivity.
  - vm_compute. reflexivity.
  - discriminate.
  - vm_compute. reflexivity.
Defined.

Lemma ask_question_store_failure_sentinel_if_printed_witness :
  @ask_question failing_store_backend (registry_of history_subject) what
    initial_world =
  (Respond (MkChatResponse (of_string "s1") (of_string "What?") sentinel []),
   World (history
            (World [LoadModel;
                    GetOrCreateCollection (collection_name (of_string "s1"));
                    CollectionCount] true)
          ++ [Print (error_querying (Exception (of_string "down")))])
         true).
Proof.
  apply (proj1 (@ask_question_store_failure_sentinel_if_printed
           failing_store_backend
           (registry_of history_subject) what history_subject initial_world
           (World [LoadModel] true)
           (World [LoadModel;
                   GetOrCreateCollection (collection_name (of_string "s1"));
                   CollectionCount] true)
           (Exception (of_string "down"))
           ltac:(vm_compute; reflexivity) eq_refl eq_refl
           ltac:(vm_compute; reflexivity)) tt eq_refl).
Defined.

(** The same store with a closed standard output: the request fails. *)
Example ask_question_store_failure_unprinted :
  @ask_question
    (stub_backend_printing (Raise (Exception (of_string "closed file")))
       (Raise (Exception (of_string "down"))) [] [] (Ok []))
    (registry_of history_subject) what initial_world =
  (HTTPException 500 (of_string "Error processing question: closed file"),
   World [LoadModel;
          GetOrCreateCollection (collection_name (of_string "s1"));
          CollectionCount;
          Print (of_string "Error querying documents: down")] true).
Proof. vm_compute. reflexivity. Qed.

Lemma ask_question_outcomes_witness :
  3 <= py_len (py_strip (of_string "Paris")) /\
  NoDup [of_string "A.pdf"; of_string "B.pdf"].
Proof.
  destruct (proj1 (@ask_question_outcomes working_backend
                     (registry_of history_subject) what initial_world
                     (World ([LoadModel] ++ retrieval_calls
                               ++ [Tokenize what_prompt; Generate; Decode]) true))
              (MkChatResponse (of_string "s1") (of_string "What?")
                 (of_string "Paris") [of_string "A.pdf"; of_string "B.pdf"]))
    as (_ & _ & Hlen & Hnd).
  - vm_compute. reflexivity.
  - exact (conj Hlen Hnd).
Defined.

Lemma query_documents_clamps_n_results_witness :
  4 <= 5 /\
  exists coll count',
    @collection_count working_backend
      (history initial_world ++
         [GetOrCreateCollection (collection_name (of_string "s1"));
          CollectionCount; Encode [of_string "What?"]]) coll = Ok count' /\
    4 = Z.min 5 count'.
Proof.
  apply (proj1 (@query_documents_clamps_n_results working_backend
                  (of_string "s1") (of_string "What?") 5 initial_world
                  (World retrieval_calls false)
                  (Ok (Retrieval four_chunks two_files [tt; tt; tt; tt]))
                  retrieval_calls
                  ltac:(vm_compute; reflexivity) eq_refl) 4).
  unfold retrieval_calls. rewrite !elem_of_cons. auto 10.
Defined.

End PipelineMore.

(** ** Text extraction *)

Module TextExtractionFacts.
Import Pipeline TextExtraction.

(** X14.  [extract_text_from_txt] never raises: every byte string is
    decoded.  The result is the UTF-8 decoding when the content is valid
    UTF-8, and otherwise the Latin-1 decoding, which has one character per
    byte, of the byte's value; [cp1252] is never reached, whatever it would
    have answered. *)
Theorem extract_text_from_txt_always_decodes `{Codecs} (content : list Byte.byte) :
  extract_text_from_txt content =
    Ok (default (decode_latin_1 content) (decode_utf_8 content)) /\
  (decode_utf_8 content = None ->
   exists t, extract_text_from_txt content = Ok t /\
             length t = length content /\
             forall (i : nat) b, content !! i = Some b -> t !! i = Some (Byte.to_N b)).
Proof.
  assert (Hrun : extract_text_from_txt content =
            Ok (default (decode_latin_1 content) (decode_utf_8 content))).
  { unfold extract_text_from_txt. cbn [first_decoding bytes_decode].
    by destruct (decode_utf_8 content). }
  split; [done|]. intros Hu. rewrite Hrun, Hu. cbn [default].
  exists (decode_latin_1 content). split; [done|]. unfold decode_latin_1.
  split; [apply length_fmap|].
  intros i b Hb.
  etransitivity; [apply (list_lookup_fmap Byte.to_N content i)|]. by rewrite Hb.
Qed.

Lemma extract_text_from_txt_always_decodes_witness :
  exists t, @extract_text_from_txt ascii_codecs [Byte.x63; Byte.xe9] = Ok t /\
            length t = 2%nat /\
            forall (i : nat) b, [Byte.x63; Byte.xe9] !! i = Some b ->
                                t !! i = Some (Byte.to_N b).
Proof.
  apply (proj2 (@extract_text_from_txt_always_decodes ascii_codecs
                  [Byte.x63; Byte.xe9])).
  reflexivity.
Defined.

Lemma pages_text_all_ok (texts : list text) (acc : text) :
  pages_text (Ok <$> texts) acc =
  Ok (acc ++ concat ((fun page => page ++ [newline]) <$> texts)).
Proof.
  revert acc. induction texts as [|t texts IH]; intros acc; cbn.
  - by rewrite app_nil_r.
  - rewrite IH. by rewrite <- !app_assoc.
Qed.

Lemma pages_blank (texts : list text) :
  Forall (fun page => forallb is_space page = true) texts ->
  forallb is_space (concat ((fun page => page ++ [newline]) <$> texts)) = true.
Proof.
  induction 1 as [|t texts Ht _ IH]; [done|]. cbn.
  rewrite !forallb_app, Ht, IH. done.
Qed.

(** X15.  What [extract_text_from_pdf] returns is stripped.  When the
    reader and every page answer, it is the [strip] of the page texts, each
    followed by a newline; so a PDF without pages, or whose pages hold
    whitespace only, gives the empty string.  What it raises always starts
    with ["Error extracting text from PDF: "]. *)
Theorem extract_text_from_pdf_stripped (reader : pdf_reader) :
  (forall t, extract_text_from_pdf reader = Ok t -> py_strip t = t) /\
  (forall texts, reader = Ok (Ok <$> texts) ->
     extract_text_from_pdf reader =
       Ok (py_strip (concat ((fun page => page ++ [newline]) <$> texts))) /\
     (Forall (fun page => forallb is_space page = true) texts ->
      extract_text_from_pdf reader = Ok [])) /\
  (forall e, extract_text_from_pdf reader = Raise e ->
     exists cause,
       e = Exception (of_string "Error extracting text from PDF: " ++ cause)).
Proof.
  split; [|split].
  - intros t. unfold extract_text_from_pdf.
    destruct reader as [pages|e]; [|done].
    destruct (pages_text pages []) as [t'|e]; [|done].
    intros [= <-]. apply py_strip_idemp.
  - intros texts ->. unfold extract_text_from_pdf.
    rewrite pages_text_all_ok. cbn [app]. split; [done|].
    intros Hb. f_equal. apply ChunkerMore.py_strip_blank. by apply pages_blank.
  - intros e. unfold extract_text_from_pdf.
    destruct reader as [pages|e0]; [|intros [= <-]; eauto].
    destruct (pages_text pages []) as [t'|e0]; [done|intros [= <-]; eauto].
Qed.

Lemma extract_text_from_pdf_stripped_witness :
  extract_text_from_pdf (Ok [Ok (of_string "  "); Ok [newline]]) = Ok [].
Proof.
  apply (proj2 (proj1 (proj2 (extract_text_from_pdf_stripped
                  (Ok [Ok (of_string "  "); Ok [newline]])))
                  [of_string "  "; [newline]] eq_refl)).
  repeat constructor.
Defined.

End TextExtractionFacts.

(** ** The write side *)

Module WriteSideFacts.
Import Pipeline PipelineFacts WriteSide.

(** *** Strings *)

Lemma ascii_of_N_of_ascii (l : list ascii) :
  List.map ascii_of_N (List.map N_of_ascii l) = l.
Proof.
  induction l as [|a l IH]; [done|]. cbn. by rewrite ascii_N_embedding, IH.
Qed.

Lemma of_string_inj (s1 s2 : string) : of_string s1 = of_string s2 -> s1 = s2.
Proof.
  unfold of_string. intros E.
  apply (f_equal (List.map ascii_of_N)) in E.
  rewrite !ascii_of_N_of_ascii in E.
  apply (f_equal string_of_list_ascii) in E.
  by rewrite !string_of_list_ascii_of_string in E.
Qed.

Lemma str_of_int_inj (i j : Z) : str_of_int i = str_of_int j -> i = j.
Proof. intros E. apply of_string_inj in E. by apply (inj pretty) in E. Qed.

Ltac distinct_keys := intros E; vm_compute in E; discriminate.

(** *** The batch of add_documents *)

(** X16.  The ids [add_documents] gives the chunks of a document are as
    many as the chunks, the [i]-th is [document_id ++ "_chunk_" ++ str(i)],
    and no two of them are equal. *)
Theorem chunk_ids_distinct (document_id : text) (chunks : list text) :
  length (chunk_ids document_id chunks) = length chunks /\
  NoDup (chunk_ids document_id chunks) /\
  (forall (i : nat) c, chunks !! i = Some c ->
     chunk_ids document_id chunks !! i =
       Some (document_id ++ of_string "_chunk_" ++ str_of_int (Z.of_nat i))).
Proof.
  unfold chunk_ids, py_len. split; [|split].
  - by rewrite length_fmap, length_seqZ, Nat2Z.id.
  - apply NoDup_fmap_2_strong; [|apply NoDup_seqZ].
    intros i j _ _ E. apply app_inv_head, app_inv_head in E.
    by apply str_of_int_inj.
  - intros i c Hc. pose proof (lookup_lt_Some _ _ _ Hc).
    rewrite list_lookup_fmap, lookup_seqZ_lt by lia. done.
Qed.

Lemma chunk_metadatas_lookup
    (document_id : text) (chunks : list text) (md : gmap text meta_value)
    (i : nat) (m : gmap text meta_value) :
  chunk_metadatas document_id chunks md !! i = Some m ->
  m !! of_string "chunk_index" = Some (MInt (Z.of_nat i)) /\
  m !! of_string "document_id" = Some (MStr document_id) /\
  (forall k, k <> of_string "chunk_index" -> k <> of_string "document_id" ->
     m !! k = md !! k).
Proof.
  unfold chunk_metadatas, py_len. rewrite list_lookup_fmap.
  destruct (seqZ 0 (Z.of_nat (length chunks)) !! i) as [j|] eqn:Hj; [|done].
  apply lookup_seqZ in Hj as [-> _]. intros [= <-]. rewrite Z.add_0_l.
  split; [|split].
  - rewrite lookup_insert_ne by distinct_keys. apply lookup_insert_eq.
  - apply lookup_insert_eq.
  - intros k Hk1 Hk2. by rewrite !lookup_insert_ne.
Qed.

(** X17.  The metadata stored with chunk [i] of a document holds
    [chunk_index = i] and the document id, and otherwise what the caller's
    metadata holds: every other key keeps its value, and no key is
    added. *)
Theorem chunk_metadatas_keep_document_metadata
    (document_id : text) (chunks : list text) (md : gmap text meta_value) :
  length (chunk_metadatas document_id chunks md) = length chunks /\
  (forall (i : nat) m, chunk_metadatas document_id chunks md !! i = Some m ->
     m !! of_string "chunk_index" = Some (MInt (Z.of_nat i)) /\
     m !! of_string "document_id" = Some (MStr document_id) /\
     (forall k, k <> of_string "chunk_index" -> k <> of_string "document_id" ->
        m !! k = md !! k)).
Proof.
  split.
  - unfold chunk_metadatas, py_len.
    by rewrite length_fmap, length_seqZ, Nat2Z.id.
  - apply chunk_metadatas_lookup.
Qed.

Lemma first_seen_constant (x : meta_value) (l : list meta_value) :
  l <> [] -> Forall (fun y => y = x) l -> first_seen l = [x].
Proof.
  intros Hne Hall. destruct l as [|y l]; [done|].
  apply Forall_cons in Hall as [-> Hall]. cbn [first_seen]. f_equal.
  clear Hne. induction l as [|y l IH]; [done|].
  apply Forall_cons in Hall as [-> Hall]. cbn [first_seen].
  rewrite filter_cons_False by (intros Hx; by apply Hx).
  rewrite list_filter_filter_l; [by apply IH|done].
Qed.

(** X18.  From upload to attribution.  Let a document be stored by
    [add_documents] with the metadata [upload_document] builds for a file
    name [filename].  Whatever chunks of that document a retrieval
    returns, in whatever order and number (at least one), the sources of
    the answer are that one file name, and it passes the validation of
    the response. *)
Theorem uploaded_chunks_one_source
    (filename file_type subject_id document_id : text) (chunks : list text)
    (mds : list metadata) :
  mds <> [] ->
  Forall (fun m => exists d, m = Some d /\
            d ∈ chunk_metadatas document_id chunks
                  (upload_metadata filename file_type subject_id)) mds ->
  extract_sources mds = [MStr filename] /\
  validate_sources (extract_sources mds) = Some [filename].
Proof.
  intros Hne Hall.
  assert (Hf : Forall (fun m => filename_of m = Some (MStr filename)) mds).
  { eapply Forall_impl; [exact Hall|]. intros m (d & -> & Hd).
    apply list_elem_of_lookup in Hd as [i Hi].
    destruct (chunk_metadatas_lookup document_id chunks
                (upload_metadata filename file_type subject_id) i d Hi)
      as (_ & _ & Hk).
    cbn. rewrite Hk by distinct_keys. unfold upload_metadata.
    rewrite !lookup_insert_ne by distinct_keys. apply lookup_insert_eq. }
  assert (Ho : omap filename_of mds <> [] /\
               Forall (fun y => y = MStr filename) (omap filename_of mds)).
  { clear Hall. induction Hf as [|m mds Hm _ IH]; [done|].
    cbn. rewrite Hm. split; [done|]. apply Forall_cons. split; [done|].
    destruct mds; [constructor|]. by apply IH. }
  rewrite extract_sources_first_seen.
  rewrite (first_seen_constant (MStr filename)) by apply Ho. done.
Qed.

Section Effects.
Context `{Outside}.

Ltac io :=
  repeat progress
    (unfold _save_subjects, io_bind, io_ret, io_raise, outside, io_try,
       read_subjects, write_subjects; cbn [effects subjects]).

(** *** vector_db_service *)

(** X19.  [add_documents] writes one batch or nothing.  For no chunks it
    returns 0 and touches nothing.  Otherwise, when it returns, it returns
    the number of chunks after exactly three calls: get-or-create of the
    subject's collection, one embedding of all the chunks, and one add of
    ids, chunks and metadata of equal lengths.  When it raises, a call
    raised and nothing was caught: the calls made are a beginning of those
    three.  The registry is never touched. *)
Theorem add_documents_one_batch
    (subject_id document_id : text) (chunks : list text)
    (md : gmap text meta_value) (st : state) :
  let batch :=
    [GetOrCreate (collection_name subject_id); EncodeChunks chunks;
     Add (chunk_ids document_id chunks) chunks
         (chunk_metadatas document_id chunks md)] in
  (chunks = [] -> add_documents subject_id document_id chunks md st = (Ok 0, st)) /\
  (chunks <> [] ->
   forall res st', add_documents subject_id document_id chunks md st = (res, st') ->
     subjects st' = subjects st /\
     match res with
     | Ok n =>
         n = py_len chunks /\ effects st' = effects st ++ batch /\
         length (chunk_ids document_id chunks) = length chunks /\
         length (chunk_metadatas document_id chunks md) = length chunks
     | Raise e =>
         exists k, (1 <= k <= 3)%nat /\ effects st' = effects st ++ take k batch
     end).
Proof.
  intros batch. split; [by intros ->|].
  intros Hne res st'. unfold add_documents, get_or_create_collection.
  assert (Ht : truthy chunks = true) by by destruct chunks.
  rewrite Ht. cbn [negb]. io.
  destruct (store_get_or_create (effects st) (collection_name subject_id))
    as [coll|e];
    [|intros [= <- <-]; split; [done|]; exists 1%nat; split; [lia|done]].
  destruct (store_encode _ chunks) as [emb|e];
    [|intros [= <- <-]; split; [done|]; exists 2%nat; split; [lia|]; cbn;
      by rewrite <- !app_assoc].
  destruct (store_add _ coll emb _ _ _) as [[]|e].
  - intros [= <- <-]. cbn [subjects effects]. split; [done|].
    split; [done|]. split; [by rewrite <- !app_assoc|].
    unfold chunk_ids, chunk_metadatas, py_len.
    by rewrite !length_fmap, length_seqZ, Nat2Z.id.
  - intros [= <- <-]. split; [done|]. exists 3%nat. split; [lia|]. cbn.
    by rewrite <- !app_assoc.
Qed.

(** X20.  The guarded store operations never raise.  [delete_collection]
    makes its one call and returns, whatever the store answers.
    [get_collection_count] gets the collection and, when that returned,
    asks it for its count: it returns that count when both calls returned,
    and 0 when the first or the second raised; it makes no other call and
    leaves the registry alone. *)
Theorem store_cleanup_never_raises (subject_id : text) (st : state) :
  let name := collection_name subject_id in
  delete_collection subject_id st =
    (Ok tt, State (effects st ++ [Delete name]) (subjects st)) /\
  (forall coll n,
     store_get_or_create (effects st) name = Ok coll ->
     store_count (effects st ++ [GetOrCreate name]) coll = Ok n ->
     get_collection_count subject_id st =
       (Ok n, State (effects st ++ [GetOrCreate name; Count]) (subjects st))) /\
  (forall coll e,
     store_get_or_create (effects st) name = Ok coll ->
     store_count (effects st ++ [GetOrCreate name]) coll = Raise e ->
     get_collection_count subject_id st =
       (Ok 0, State (effects st ++ [GetOrCreate name; Count]) (subjects st))) /\
  (forall e,
     store_get_or_create (effects st) name = Raise e ->
     get_collection_count subject_id st =
       (Ok 0, State (effects st ++ [GetOrCreate name]) (subjects st))) /\
  (exists n st', get_collection_count subject_id st = (Ok n, st')).
Proof.
  intros name.
  assert (Hcount : get_collection_count subject_id st =
    match store_get_or_create (effects st) name with
    | Ok coll =>
        (match store_count (effects st ++ [GetOrCreate name]) coll with
         | Ok n => Ok n
         | Raise _ => Ok 0
         end,
         State (effects st ++ [GetOrCreate name; Count]) (subjects st))
    | Raise _ => (Ok 0, State (effects st ++ [GetOrCreate name]) (subjects st))
    end).
  { unfold get_collection_count, get_or_create_collection. io. fold name.
    destruct (store_get_or_create (effects st) name) as [coll|e]; [|done].
    rewrite <- app_assoc. cbn [app].
    by destruct (store_count (effects st ++ [GetOrCreate name]) coll). }
  split; [|split; [|split; [|split]]].
  - unfold delete_collection. io. fold name.
    by destruct (store_delete (effects st) name) as [[]|e].
  - intros coll n E0 E1. by rewrite Hcount, E0, E1.
  - intros coll e E0 E1. by rewrite Hcount, E0, E1.
  - intros e E0. by rewrite Hcount, E0.
  - rewrite Hcount.
    destruct (store_get_or_create (effects st) name) as [coll|e]; [|eauto].
    destruct (store_count (effects st ++ [GetOrCreate name]) coll); eauto.
Qed.

(** *** subject_service *)

Lemma create_subject_unfold (name : text) (description : option text)
    (st : state) :
  let subject :=
    Subject (uuid4 (effects st)) name description
      (now_isoformat (effects st ++ [Uuid4])) (Some []) in
  let subjects' := <[uuid4 (effects st) := subject]> (subjects st) in
  let st' := State (effects st ++ [Uuid4; Now; SaveSubjects subjects']) subjects' in
  create_subject name description st =
  match dump_subjects (effects st ++ [Uuid4; Now]) subjects' with
  | Ok _ => (Ok subject, st')
  | Raise e => (Raise e, st')
  end.
Proof.
  unfold create_subject. io. rewrite <- !app_assoc. cbn [app].
  by destruct (dump_subjects _ _) as [[]|e].
Qed.

(** X21.  Creating a subject and reading it back.  When [create_subject]
    returns a subject, that subject carries the given name and
    description, a fresh id from the UUID source and no documents;
    [get_subject] on its id returns it and [get_document_count] gives 0;
    the subjects under other ids are as before; and the registry written
    to the file is the registry in memory. *)
Theorem create_subject_then_get
    (name : text) (description : option text) (st st' : state) (s : subject) :
  create_subject name description st = (Ok s, st') ->
  sub_name s = name /\ sub_description s = description /\
  sub_documents s = Some [] /\ sub_id s = uuid4 (effects st) /\
  get_subject (sub_id s) st' = (Ok (Some s), st') /\
  get_document_count (sub_id s) st' = (Ok 0, st') /\
  (forall other, other <> sub_id s ->
     subjects st' !! other = subjects st !! other) /\
  effects st' = effects st ++ [Uuid4; Now; SaveSubjects (subjects st')].
Proof.
  rewrite create_subject_unfold. cbv zeta.
  destruct (dump_subjects _ _) as [[]|e]; [|done].
  intros [= <- <-]. cbn [sub_name sub_description sub_documents sub_id].
  repeat split.
  - unfold get_subject. io. by rewrite lookup_insert_eq.
  - unfold get_document_count. io. by rewrite lookup_insert_eq.
  - intros other Hne. cbn. by rewrite lookup_insert_ne.
Qed.

Lemma add_document_unfold (subject_id document_id filename file_type : text)
    (st : state) (s : subject) (docs : list document_ref) :
  subjects st !! subject_id = Some s ->
  sub_documents s = Some docs ->
  let document :=
    DocumentRef document_id filename file_type (now_isoformat (effects st)) in
  let s' := Subject (sub_id s) (sub_name s) (sub_description s)
              (sub_created_at s) (Some (docs ++ [document])) in
  let subjects' := <[subject_id := s']> (subjects st) in
  let st' := State (effects st ++ [Now; SaveSubjects subjects']) subjects' in
  add_document_to_subject subject_id document_id filename file_type st =
  match dump_subjects (effects st ++ [Now]) subjects' with
  | Ok _ => (Ok true, st')
  | Raise e => (Raise e, st')
  end.
Proof.
  intros Hs Hd. unfold add_document_to_subject, append_document. io.
  rewrite Hs. io. rewrite Hd. io. rewrite <- !app_assoc. cbn [app].
  by destruct (dump_subjects _ _) as [[]|e].
Qed.

(** X22.  Attaching a document.  For a subject that is not in the
    registry [add_document_to_subject] returns [False] and does nothing.
    For a subject that is there, when it returns it returns [True], the new
    document reference stands last in the subject's documents, the
    document count is one higher, the other subjects are as before, and
    the subject no longer counts as having no documents (so a question
    to it goes on to retrieval). *)
Theorem add_document_to_subject_appends
    (subject_id document_id filename file_type : text) (st : state) :
  (subjects st !! subject_id = None ->
   add_document_to_subject subject_id document_id filename file_type st
     = (Ok false, st)) /\
  (forall s docs b st',
     subjects st !! subject_id = Some s ->
     sub_documents s = Some docs ->
     add_document_to_subject subject_id document_id filename file_type st
       = (Ok b, st') ->
     b = true /\
     exists s',
       subjects st' !! subject_id = Some s' /\
       sub_documents s' =
         Some (docs ++ [DocumentRef document_id filename file_type
                          (now_isoformat (effects st))]) /\
       sub_id s' = sub_id s /\ sub_name s' = sub_name s /\
       has_no_documents s' = false /\
       get_document_count subject_id st' = (Ok (py_len docs + 1), st') /\
       (forall other, other <> subject_id ->
          subjects st' !! other = subjects st !! other)).
Proof.
  split.
  - intros Hs. unfold add_document_to_subject. io. by rewrite Hs.
  - intros s docs b st' Hs Hd.
    rewrite (add_document_unfold _ _ _ _ _ _ _ Hs Hd). cbv zeta.
    destruct (dump_subjects _ _) as [[]|e]; [|done].
    intros [= <- <-]. split; [done|]. eexists. cbn [subjects].
    split; [apply lookup_insert_eq|]. cbn [sub_documents sub_id sub_name].
    repeat split.
    + unfold has_no_documents. cbn [sub_documents].
      destruct docs; cbn; [done|]. unfold py_len. cbn [length].
      match goal with
      | |- context [?a =? 0] => by destruct (Z.eqb_spec a 0); [lia|]
      end.
    + unfold get_document_count. io. rewrite lookup_insert_eq.
      cbn. unfold py_len. rewrite length_app. cbn [length].
      do 2 f_equal. lia.
    + intros other Hne. by rewrite lookup_insert_ne.
Qed.

Lemma delete_subject_unfold (subject_id : text) (st : state) (s : subject) :
  subjects st !! subject_id = Some s ->
  let subjects' := delete subject_id (subjects st) in
  let st' :=
    State (effects st ++ [Delete (collection_name subject_id);
                          SaveSubjects subjects']) subjects' in
  delete_subject subject_id st =
  match dump_subjects (effects st ++ [Delete (collection_name subject_id)])
          subjects' with
  | Ok _ => (Ok true, st')
  | Raise e => (Raise e, st')
  end.
Proof.
  intros Hs. unfold delete_subject. io. rewrite Hs.
  unfold delete_collection. io.
  destruct (store_delete (effects st) (collection_name subject_id)) as [[]|e'];
    io; rewrite <- !app_assoc; cbn [app];
    by destruct (dump_subjects _ _) as [[]|e].
Qed.

(** X23.  Deleting a subject.  For an id that is not in the registry
    [delete_subject] returns [False] and does nothing.  For a subject that
    is there, when it returns it returns [True], whether or not the
    store managed to delete the collection: the store was asked once to
    delete the subject's collection, before the registry was saved; the
    subject is gone from the registry, the others are as before, and
    deleting it again returns [False]. *)
Theorem delete_subject_removes (subject_id : text) (st : state) :
  (subjects st !! subject_id = None ->
   delete_subject subject_id st = (Ok false, st)) /\
  (forall s b st',
     subjects st !! subject_id = Some s ->
     delete_subject subject_id st = (Ok b, st') ->
     b = true /\
     subjects st' = delete subject_id (subjects st) /\
     effects st' =
       effects st ++ [Delete (collection_name subject_id);
                      SaveSubjects (delete subject_id (subjects st))] /\
     get_subject subject_id st' = (Ok None, st') /\
     (forall other, other <> subject_id ->
        subjects st' !! other = subjects st !! other) /\
     delete_subject subject_id st' = (Ok false, st')).
Proof.
  split.
  - intros Hs. unfold delete_subject. io. by rewrite Hs.
  - intros s b st' Hs. rewrite (delete_subject_unfold _ _ _ Hs). cbv zeta.
    destruct (dump_subjects _ _) as [[]|e]; [|done].
    intros [= <- <-]. cbn [subjects effects]. repeat split.
    + unfold get_subject. io. by rewrite lookup_delete_eq.
    + intros other Hne. by rewrite lookup_delete_ne.
    + unfold delete_subject. io. by rewrite lookup_delete_eq.
Qed.

(** X24.  Nothing is rolled back when the file cannot be written.  When
    dumping the registry raises, [create_subject], [add_document_to_subject]
    and [delete_subject] raise that exception, and the registry in memory
    keeps the change: the new subject is there, the document is attached,
    the subject is gone (and its collection was asked to be deleted). *)
Theorem save_failure_keeps_memory_change (st : state) (e : exn) :
  (forall name description,
     let s := Subject (uuid4 (effects st)) name description
                (now_isoformat (effects st ++ [Uuid4])) (Some []) in
     dump_subjects (effects st ++ [Uuid4; Now])
       (<[uuid4 (effects st) := s]> (subjects st)) = Raise e ->
     exists st', create_subject name description st = (Raise e, st') /\
                 subjects st' !! uuid4 (effects st) = Some s) /\
  (forall subject_id document_id filename file_type s docs,
     subjects st !! subject_id = Some s ->
     sub_documents s = Some docs ->
     let s' := Subject (sub_id s) (sub_name s) (sub_description s)
                 (sub_created_at s)
                 (Some (docs ++ [DocumentRef document_id filename file_type
                                   (now_isoformat (effects st))])) in
     dump_subjects (effects st ++ [Now]) (<[subject_id := s']> (subjects st))
       = Raise e ->
     exists st',
       add_document_to_subject subject_id document_id filename file_type st
         = (Raise e, st') /\
       subjects st' !! subject_id = Some s') /\
  (forall subject_id s,
     subjects st !! subject_id = Some s ->
     dump_subjects (effects st ++ [Delete (collection_name subject_id)])
       (delete subject_id (subjects st)) = Raise e ->
     exists st',
       delete_subject subject_id st = (Raise e, st') /\
       subjects st' !! subject_id = None /\
       Delete (collection_name subject_id) ∈ effects st').
Proof.
  split; [|split].
  - intros name description s Hd. rewrite create_subject_unfold. cbv zeta.
    fold s. rewrite Hd. eexists. split; [done|]. apply lookup_insert_eq.
  - intros subject_id document_id filename file_type s docs Hs Hdocs s' Hd.
    rewrite (add_document_unfold _ _ _ _ _ _ _ Hs Hdocs). cbv zeta.
    fold s'. rewrite Hd. eexists. split; [done|]. apply lookup_insert_eq.
  - intros subject_id s Hs Hd. rewrite (delete_subject_unfold _ _ _ Hs).
    cbv zeta. rewrite Hd. eexists. split; [done|]. cbn [subjects effects].
    split; [apply lookup_delete_eq|].
    rewrite elem_of_app, !elem_of_cons. auto.
Qed.

(** X25.  The record of a subject that has no ["documents"] key
    ([sub_documents] is [None]) cannot take a document:
    [add_document_to_subject] raises the [KeyError] of the subscript, after
    asking the clock, and neither the registry nor the file is touched. *)
Theorem add_document_without_documents_key
    (subject_id document_id filename file_type : text) (st : state) (s : subject) :
  subjects st !! subject_id = Some s ->
  sub_documents s = None ->
  add_document_to_subject subject_id document_id filename file_type st =
    (Raise (Exception (of_string "'documents'")),
     State (effects st ++ [Now]) (subjects st)).
Proof.
  intros Hs Hd. unfold add_document_to_subject, append_document. io.
  rewrite Hs. io. by rewrite Hd.
Qed.

(** *** routers/subjects *)

(** X26.  The subject routes, one after the other.  What the creation
    route returns is what the read route returns for the new id, with a
    document count of 0.  After the deletion route has returned, the read
    route and the deletion route both answer 404 for that id. *)
Theorem subject_routes_compose (st st' : state) :
  (forall name description r,
     route_create_subject name description st = (Ok (Returns r), st') ->
     sr_document_count r = 0 /\
     route_get_subject (sr_id r) st' = (Ok (Returns r), st')) /\
  (forall subject_id,
     route_delete_subject subject_id st = (Ok (Returns tt), st') ->
     route_get_subject subject_id st'
       = (Ok (HTTPError 404 (of_string "Subject not found")), st') /\
     route_delete_subject subject_id st'
       = (Ok (HTTPError 404 (of_string "Subject not found")), st')).
Proof.
  split.
  - intros name description r. unfold route_create_subject.
    unfold io_bind at 1. rewrite create_subject_unfold. cbv zeta.
    destruct (dump_subjects _ _) as [[]|e]; [|done].
    io. intros [= <- <-]. cbn [sr_document_count sr_id sub_id]. split; [done|].
    unfold route_get_subject, get_subject. io. by rewrite lookup_insert_eq.
  - intros subject_id. unfold route_delete_subject. unfold io_bind at 1.
    destruct (subjects st !! subject_id) as [s|] eqn:Hs.
    + rewrite (delete_subject_unfold _ _ _ Hs). cbv zeta.
      destruct (dump_subjects _ _) as [[]|e]; [|done].
      io. intros [= <-]. split.
      * unfold route_get_subject, get_subject. io. by rewrite lookup_delete_eq.
      * unfold delete_subject. io. by rewrite lookup_delete_eq.
    + unfold delete_subject. io. by rewrite Hs.
Qed.

End Effects.

(** *** The registry and the questions *)

(** X27.  A question to a subject that was just created is answered with
    the sentinel and no sources, without any outside call; and once
    [add_document_to_subject] has returned for a subject, a question to it
    (with the chatbot service in place) goes on to retrieval: the first
    call it makes is the get-or-create of the subject's collection. *)
Theorem registry_decides_short_circuit
    `{Outside} `{Backend} (st st' : state) (question : text) (w : world) :
  (forall name description s,
     create_subject name description st = (Ok s, st') ->
     ask_question (subjects st') (MkChatRequest (sub_id s) question) w =
       (Respond (MkChatResponse (sub_id s) question sentinel []), w)) /\
  (forall subject_id document_id filename file_type s docs,
     subjects st !! subject_id = Some s ->
     sub_documents s = Some docs ->
     add_document_to_subject subject_id document_id filename file_type st
       = (Ok true, st') ->
     chatbot_service w = true ->
     exists cs,
       history (snd (ask_question (subjects st')
                       (MkChatRequest subject_id question) w)) =
       history w ++ GetOrCreateCollection (collection_name subject_id) :: cs).
Proof.
  split.
  - intros name description s. rewrite create_subject_unfold. cbv zeta.
    destruct (dump_subjects _ _) as [[]|e]; [|done].
    intros [= <- <-]. unfold ask_question.
    cbn [req_subject_id sub_id subjects]. by rewrite lookup_insert_eq.
  - intros subject_id document_id filename file_type s docs Hs Hd.
    rewrite (add_document_unfold _ _ _ _ _ _ _ Hs Hd). cbv zeta.
    destruct (dump_subjects _ _) as [[]|e]; [|done].
    intros [= <-] Hw. cbn [subjects].
    erewrite PipelineMore.ask_question_unfold; cycle 1.
    { cbn [req_subject_id]. apply lookup_insert_eq. }
    { unfold has_no_documents. cbn [sub_documents].
      destruct (docs ++ _) eqn:E; [by destruct docs|]. cbn [truthy negb orb].
      unfold py_len. cbn [length].
      match goal with
      | |- context [?a =? 0] => by destruct (Z.eqb_spec a 0); [lia|]
      end. }
    unfold get_chatbot_service. rewrite Hw. cbn [req_subject_id req_question].
    assert (Hq' : forall res w1,
      query_documents subject_id question 5 w = (res, w1) ->
      exists cs1, history w1 =
        history w ++ GetOrCreateCollection (collection_name subject_id) :: cs1).
    { intros res w1 Hq.
      destruct (query_documents_after_try _ _ _ _ _ _ Hq)
        as (o & w0 & p & Ht0 & -> & _).
      pose proof (query_documents_try_cases subject_id question 5 w) as Ht.
      cbv zeta in Ht. rewrite <- !app_assoc in Ht. cbn [app] in Ht.
      assert (Hfin : forall o' cs1 cs,
        query_documents_try subject_id question 5 w =
          (o', World (history w ++
                        GetOrCreateCollection (collection_name subject_id) :: cs1)
                     cs) ->
        exists cs1', history w0 ++ p =
          history w ++ GetOrCreateCollection (collection_name subject_id) :: cs1').
      { intros o' cs1 cs Ht'. rewrite Ht' in Ht0. injection Ht0 as _ <-.
        cbn [history]. rewrite <- app_assoc. cbn [app]. eauto. }
      cbn [history].
      destruct Ht as [(e & _ & Ht)|(coll & _ & Ht)]; [by eapply Hfin|].
      destruct Ht as [(e & _ & Ht)|[[_ Ht]|(count & _ & _ & Ht)]];
        [by eapply Hfin..|].
      destruct Ht as [(e & _ & Ht)|(emb & _ & Ht)]; [by eapply Hfin|].
      destruct Ht as [(e & _ & Ht)|(count' & _ & Ht)]; [by eapply Hfin|].
      cbv zeta in Ht. rewrite <- !app_assoc in Ht. cbn [app] in Ht.
      destruct Ht as [(e & _ & Ht)|(results & _ & Ht)]; by eapply Hfin. }
    destruct (PipelineMore.answer_question_cases subject_id question 5 w)
      as [(e & w1 & Hq & ->)|(r & w1 & Hq & Hc)].
    { destruct (Hq' _ _ Hq) as [cs1 Hh1]. cbn [snd]. eauto. }
    destruct (Hq' _ _ Hq) as [cs1 Hh1].
    destruct Hc as [[_ ->]|[_ Hc]]; [cbn; eauto|].
    cbv zeta in Hc. destruct Hc as [(e & w2 & Hm & ->)|(a & w2 & Hm & ->)].
    + destruct (PipelineMore.run_model_calls _ _ _ _ Hm) as (_ & cs2 & Hh2 & _).
      cbn [snd history]. rewrite Hh2, Hh1, <- app_assoc. cbn [app]. eauto.
    + destruct (PipelineMore.run_model_calls _ _ _ _ Hm) as (_ & cs2 & Hh2 & _).
      cbn [sources answer].
      destruct (validate_sources _); cbn [snd history];
        rewrite Hh2, Hh1, <- app_assoc; cbn [app]; eauto.
Qed.

(** *** The theorems at concrete values *)

Lemma chunk_ids_distinct_witness :
  chunk_ids (of_string "d1") [of_string "one"; of_string "two"] !! 1%nat =
  Some (of_string "d1" ++ of_string "_chunk_" ++ str_of_int (Z.of_nat 1)).
Proof.
  apply (proj2 (proj2 (chunk_ids_distinct (of_string "d1")
                         [of_string "one"; of_string "two"]))
           1%nat (of_string "two")).
  reflexivity.
Defined.

Lemma chunk_metadatas_keep_document_metadata_witness :
  (<[of_string "document_id" := MStr (of_string "d1")]>
     (<[of_string "chunk_index" := MInt 1]>
        (upload_metadata (of_string "A.pdf") (of_string "pdf") (of_string "s1"))))
    !! of_string "filename" = Some (MStr (of_string "A.pdf")).
Proof.
  etransitivity.
  - apply (proj2 (chunk_metadatas_keep_document_metadata (of_string "d1")
                    [of_string "one"; of_string "two"]
                    (upload_metadata (of_string "A.pdf") (of_string "pdf")
                       (of_string "s1"))) 1%nat _ eq_refl);
      intros E; vm_compute in E; discriminate.
  - vm_compute. reflexivity.
Defined.

Lemma uploaded_chunks_one_source_witness :
  extract_sources
    (Some <$> rev (chunk_metadatas (of_string "d1")
                     [of_string "one"; of_string "two"; of_string "three"]
                     (upload_metadata (of_string "A.pdf") (of_string "pdf")
                        (of_string "s1"))))
  = [MStr (of_string "A.pdf")].
Proof.
  apply (uploaded_chunks_one_source (of_string "A.pdf") (of_string "pdf")
           (of_string "s1") (of_string "d1")
           [of_string "one"; of_string "two"; of_string "three"]).
  - intros E. apply (f_equal length) in E. vm_compute in E. discriminate.
  - apply Forall_fmap, Forall_forall. intros d Hd. exists d. split; [done|].
    apply list_elem_of_In. apply list_elem_of_In in Hd. by apply in_rev.
Defined.

Lemma add_documents_one_batch_witness :
  @add_documents quiet_outside (of_string "s1") (of_string "d1") [] ∅ empty_state
    = (Ok 0, empty_state).
Proof.
  apply (proj1 (@add_documents_one_batch quiet_outside (of_string "s1")
                  (of_string "d1") [] ∅ empty_state)).
  reflexivity.
Defined.

(** A store that holds three chunks: the count is returned. *)
Lemma store_cleanup_never_raises_witness :
  @get_collection_count quiet_outside (of_string "s1") empty_state =
    (Ok 3,
     State (effects empty_state
              ++ [GetOrCreate (collection_name (of_string "s1")); Count])
           (subjects empty_state)).
Proof.
  apply (proj1 (proj2 (@store_cleanup_never_raises quiet_outside
                         (of_string "s1") empty_state)) tt 3);
    reflexivity.
Defined.

(** A store that refuses to delete or to count does not make the guarded
    operations raise. *)
Example store_cleanup_broken_store :
  @delete_collection broken_outside (of_string "s1") empty_state =
    (Ok tt, State [Delete (collection_name (of_string "s1"))] ∅) /\
  @get_collection_count broken_outside (of_string "s1") empty_state =
    (Ok 0, State [GetOrCreate (collection_name (of_string "s1")); Count] ∅).
Proof. split; reflexivity. Qed.

Lemma create_subject_then_get_witness :
  get_subject (of_string "id-0") first_state
    = (Ok (Some first_subject), first_state).
Proof.
  apply (@create_subject_then_get quiet_outside (of_string "History") None
           empty_state first_state first_subject).
  vm_compute. reflexivity.
Defined.

Lemma add_document_to_subject_appends_witness :
  @add_document_to_subject quiet_outside (of_string "id-7") (of_string "d1")
    (of_string "A.pdf") (of_string "pdf") first_state = (Ok false, first_state).
Proof.
  apply (proj1 (@add_document_to_subject_appends quiet_outside
                  (of_string "id-7") (of_string "d1") (of_string "A.pdf")
                  (of_string "pdf") first_state)).
  vm_compute. reflexivity.
Defined.

Lemma delete_subject_removes_witness :
  @delete_subject quiet_outside (of_string "id-7") first_state
    = (Ok false, first_state).
Proof.
  apply (proj1 (@delete_subject_removes quiet_outside (of_string "id-7")
                  first_state)).
  vm_compute. reflexivity.
Defined.

Lemma save_failure_keeps_memory_change_witness :
  exists st',
    @delete_subject broken_outside (of_string "id-0") first_state
      = (Raise (Exception (of_string "disk full")), st') /\
    subjects st' !! of_string "id-0" = None /\
    Delete (collection_name (of_string "id-0")) ∈ effects st'.
Proof.
  apply (proj2 (proj2 (@save_failure_keeps_memory_change broken_outside
                         first_state (Exception (of_string "disk full"))))
           (of_string "id-0") first_subject).
  - vm_compute. reflexivity.
  - reflexivity.
Defined.

Lemma add_document_without_documents_key_witness :
  @add_document_to_subject quiet_outside (of_string "id-9") (of_string "d1")
    (of_string "A.pdf") (of_string "pdf") damaged_state =
  (Raise (Exception (of_string "'documents'")),
   State (effects damaged_state ++ [Now]) (subjects damaged_state)).
Proof.
  apply (@add_document_without_documents_key quiet_outside (of_string "id-9")
           (of_string "d1") (of_string "A.pdf") (of_string "pdf")
           damaged_state damaged_subject).
  - vm_compute. reflexivity.
  - reflexivity.
Defined.

Lemma subject_routes_compose_witness :
  route_get_subject (of_string "id-0") first_state =
  (Ok (Returns (MkSubjectResponse (of_string "id-0") (of_string "History") None
                  (of_string "2024-01-01T00:00:00") 0)), first_state).
Proof.
  apply (proj1 (@subject_routes_compose quiet_outside empty_state first_state)
           (of_string "History") None
           (MkSubjectResponse (of_string "id-0") (of_string "History") None
              (of_string "2024-01-01T00:00:00") 0)).
  vm_compute. reflexivity.
Defined.

Lemma registry_decides_short_circuit_witness :
  @ask_question Examples.working_backend (subjects first_state)
    (MkChatRequest (sub_id first_subject) (of_string "What?")) initial_world =
  (Respond (MkChatResponse (sub_id first_subject) (of_string "What?") sentinel []),
   initial_world).
Proof.
  apply (proj1 (@registry_decides_short_circuit quiet_outside
                  Examples.working_backend empty_state first_state
                  (of_string "What?") initial_world)
           (of_string "History") None first_subject).
  vm_compute. reflexivity.
Defined.


End WriteSideFacts.
